(** * WHO Global Health Observatory MCP server: query composition and
      response normalisation

    A shallow embedding of [src/who-api.js] (the six operations and the URL
    builder) and of the tool dispatcher of [src/index.js], with the
    properties the specification states about them.

    Modelling conventions.
    - A JavaScript string is the byte sequence of its UTF-8 encoding (Rocq's
      [string]); the strings are assumed well formed (no lone surrogates).
    - A JavaScript number is the value of an IEEE double.  The code never
      computes with numbers: it only tests them for truthiness, compares
      them inside a [Set] and prints integers, so a finite number is kept as
      its exact rational value (both zeros are the rational 0, which the
      three uses cannot tell apart).  NaN is left out: neither a decoded
      JSON document nor an array length is NaN.
    - A decoded body is a tree: an object is the list of its fields, with
      distinct keys, and no array or object occurs at two places.
    - The parameters of a call have the types of the tool's input schema:
      optional strings and an optional integer.
    - The network is a function from the requested URL to either the
      message of the failure or the decoded body; every operation returns
      its outcome together with the list of URLs it requested. *)

From Stdlib Require Import String Ascii List Bool ZArith QArith Qcanon Lia.
From Stdlib Require Import DecimalString.
Import ListNotations.

Local Open Scope list_scope.
Local Open Scope string_scope.
Local Close Scope Q_scope.
Local Close Scope Qc_scope.

(** ** JavaScript values *)

Inductive Number : Type :=
| Finite (q : Qc)
| Infinity (negative : bool).

Definition numberOfZ (z : Z) : Number := Finite (Q2Qc (inject_Z z)).

(** [xs.length] *)
Definition numberOfNat (n : nat) : Number := numberOfZ (Z.of_nat n).

Definition Number_eqb (a b : Number) : bool :=
  match a, b with
  | Finite p, Finite q => Qeq_bool (this p) (this q)
  | Infinity s, Infinity t => Bool.eqb s t
  | _, _ => false
  end.

Definition Number_isZero (a : Number) : bool :=
  match a with
  | Finite q => Qeq_bool (this q) (inject_Z 0)
  | Infinity _ => false
  end.

#[local] Set Warnings "-register-all".

Inductive JsVal : Type :=
| JUndefined
| JNull
| JBool (b : bool)
| JNum (n : Number)
| JStr (s : string)
| JArr (items : list JsVal)
| JObj (fields : list (string * JsVal)).

(** ToBoolean *)
Definition truthy (v : JsVal) : bool :=
  match v with
  | JUndefined | JNull => false
  | JBool b => b
  | JNum n => negb (Number_isZero n)
  | JStr s => negb (s =? "")
  | JArr _ | JObj _ => true
  end.

(** [a || b] *)
Definition orElse (a b : JsVal) : JsVal := if truthy a then a else b.

Definition isNullish (v : JsVal) : bool :=
  match v with
  | JUndefined | JNull => true
  | _ => false
  end.

Fixpoint lookupField (k : string) (fields : list (string * JsVal)) : option JsVal :=
  match fields with
  | [] => None
  | (k', v) :: rest => if k' =? k then Some v else lookupField k rest
  end.

(** [v.k] for a [v] that is neither null nor undefined and a key [k] that no
    built-in prototype defines (every key the program reads is such a key):
    an own property of an object, undefined on anything else. *)
Definition prop (v : JsVal) (k : string) : JsVal :=
  match v with
  | JObj fields =>
      match lookupField k fields with
      | Some x => x
      | None => JUndefined
      end
  | _ => JUndefined
  end.

(** [k in v] for an object built by the program *)
Definition hasField (v : JsVal) (k : string) : bool :=
  match v with
  | JObj fields =>
      match lookupField k fields with
      | Some _ => true
      | None => false
      end
  | _ => false
  end.

(** [v?.k] *)
Definition optProp (v : JsVal) (k : string) : JsVal :=
  if isNullish v then JUndefined else prop v k.

(** ** Exceptions *)

Inductive TypeErrorCause : Type :=
| NotIterable
| PropertyOfNullish (key : string)
| NotAFunction (key : string).

Inductive Exn : Type :=
| Error (message : string)
| TypeError (cause : TypeErrorCause).

Definition Res (A : Type) : Type := (Exn + A)%type.

(** [v.k], which throws on null and undefined *)
Definition getProp (v : JsVal) (k : string) : Res JsVal :=
  if isNullish v then inl (TypeError (PropertyOfNullish k)) else inr (prop v k).

(** ** Strings *)

Definition isContinuationByte (c : ascii) : bool :=
  let n := nat_of_ascii c in (128 <=? n)%nat && (n <? 192)%nat.

Definition startsWithContinuation (s : string) : bool :=
  match s with
  | String d _ => isContinuationByte d
  | EmptyString => false
  end.

(** The code points of a string, each as a string of its own: what
    [for (const x of s)] iterates over. *)
Fixpoint codePoints (s : string) : list string :=
  match s with
  | EmptyString => []
  | String c rest =>
      match codePoints rest with
      | chunk :: chunks =>
          if startsWithContinuation rest then String c chunk :: chunks
          else String c EmptyString :: chunk :: chunks
      | [] => [String c EmptyString]
      end
  end.

(** The values a [for ... of] loop visits; a value that is not iterable
    throws. *)
Definition iterate (v : JsVal) : Res (list JsVal) :=
  match v with
  | JArr items => inr items
  | JStr s => inr (map JStr (codePoints s))
  | _ => inl (TypeError NotIterable)
  end.

(** [s.includes(c)] for a one-character [c] *)
Fixpoint includes (c : ascii) (s : string) : bool :=
  match s with
  | EmptyString => false
  | String d rest => Ascii.eqb d c || includes c rest
  end.

(** [s.split(c)] for a one-character [c] *)
Fixpoint split (c : ascii) (s : string) : list string :=
  match s with
  | EmptyString => [EmptyString]
  | String d rest =>
      if Ascii.eqb d c then EmptyString :: split c rest
      else match split c rest with
           | piece :: pieces => String d piece :: pieces
           | [] => [String d EmptyString]
           end
  end.

(** [xs.join(sep)] on an array of strings *)
Definition join (sep : string) (xs : list string) : string := String.concat sep xs.

(** The UTF-8 encodings of the code points that [trim] removes: WhiteSpace
    and LineTerminator of ECMAScript. *)
Definition whiteSpace : list string :=
  let b (n : nat) := ascii_of_nat n in
  let s1 (x : nat) := String (b x) EmptyString in
  let s2 (x y : nat) := String (b x) (s1 y) in
  let s3 (x y z : nat) := String (b x) (s2 y z) in
  [ s1 9; s1 10; s1 11; s1 12; s1 13; s1 32;          (* TAB LF VT FF CR SP *)
    s2 194 160;                                         (* U+00A0 *)
    s3 225 154 128;                                     (* U+1680 *)
    s3 226 128 128; s3 226 128 129; s3 226 128 130;     (* U+2000 .. *)
    s3 226 128 131; s3 226 128 132; s3 226 128 133;
    s3 226 128 134; s3 226 128 135; s3 226 128 136;
    s3 226 128 137; s3 226 128 138;                     (* .. U+200A *)
    s3 226 128 168; s3 226 128 169;                     (* U+2028 U+2029 *)
    s3 226 128 175;                                     (* U+202F *)
    s3 226 129 159;                                     (* U+205F *)
    s3 227 128 128;                                     (* U+3000 *)
    s3 239 187 191 ].                                   (* U+FEFF *)

Fixpoint dropPrefix (p s : string) : option string :=
  match p, s with
  | EmptyString, _ => Some s
  | String a p', String b s' => if Ascii.eqb a b then dropPrefix p' s' else None
  | String _ _, EmptyString => None
  end.

Fixpoint dropOneOf (ps : list string) (s : string) : option string :=
  match ps with
  | [] => None
  | p :: ps' =>
      match dropPrefix p s with
      | Some rest => Some rest
      | None => dropOneOf ps' s
      end
  end.

Fixpoint trimStartFuel (fuel : nat) (ws : list string) (s : string) : string :=
  match fuel with
  | O => s
  | S fuel' =>
      match dropOneOf ws s with
      | Some rest => trimStartFuel fuel' ws rest
      | None => s
      end
  end.

Fixpoint reverse (s : string) : string :=
  match s with
  | EmptyString => EmptyString
  | String c rest => reverse rest ++ String c EmptyString
  end.

Definition trimStart (s : string) : string :=
  trimStartFuel (String.length s) whiteSpace s.

Definition trimEnd (s : string) : string :=
  reverse (trimStartFuel (String.length s) (map reverse whiteSpace) (reverse s)).

(** [s.trim()] *)
Definition trim (s : string) : string := trimEnd (trimStart s).

(** ToString of an integer (of less than 22 digits, which a double prints
    in full) *)
Definition Z_toString (z : Z) : string := NilZero.string_of_int (Z.to_int z).

(** ** Outcomes

    An operation either throws or returns, and on the way requests URLs.
    [Run A] pairs the outcome with the requests made, in order. *)

Record Run (A : Type) : Type := mkRun {
  outcome : Res A;
  requests : list string
}.
Arguments mkRun {A} _ _.
Arguments outcome {A} _.
Arguments requests {A} _.

Definition ret {A : Type} (a : A) : Run A := mkRun (inr a) [].

(** [throw e] *)
Definition throw {A : Type} (e : Exn) : Run A := mkRun (inl e) [].

Definition bind {A B : Type} (m : Run A) (f : A -> Run B) : Run B :=
  match outcome m with
  | inl e => mkRun (inl e) (requests m)
  | inr a => mkRun (outcome (f a)) (requests m ++ requests (f a))%list
  end.

(** A step that makes no request *)
Definition lift {A : Type} (r : Res A) : Run A := mkRun r [].

Notation "x <- m ;; k" := (bind m (fun x => k))
  (at level 61, m at next level, right associativity).

(** The body of a [for ... of] loop that pushes one element per visit,
    stopping at the first element that throws. *)
Fixpoint mapRes {A B : Type} (f : A -> Res B) (xs : list A) : Res (list B) :=
  match xs with
  | [] => inr []
  | x :: rest =>
      match f x with
      | inl e => inl e
      | inr y =>
          match mapRes f rest with
          | inl e => inl e
          | inr ys => inr (y :: ys)
          end
      end
  end.

(** ** Request parameters

    The fields of the tool's input schema ([src/index.js]), each optional:
    [None] is an absent field.  Every field is a string but [top], an
    integer; [orderby] is not in the schema but [getHealthData] reads it. *)

Module Params.
Record t : Type := mk {
  method : option string;
  dimension_code : option string;
  indicator_code : option string;
  keywords : option string;
  top : option Z;
  filter : option string;
  country_code : option string;
  region_code : option string;
  year : option string;
  countries : option string;
  years : option string;
  sex : option string;
  orderby : option string
}.

Definition empty : t :=
  mk None None None None None None None None None None None None None.
End Params.

(** ToBoolean of an optional string *)
Definition given (o : option string) : bool :=
  match o with
  | Some s => negb (s =? "")
  | None => false
  end.

(** A template placeholder over an optional string *)
Definition show (o : option string) : string :=
  match o with
  | Some s => s
  | None => "undefined"
  end.

(** The optional string as a value *)
Definition valueOf (o : option string) : JsVal :=
  match o with
  | Some s => JStr s
  | None => JUndefined
  end.

(** ** Query Builder *)

Definition WHO_ODATA_BASE_URL : string := "https://ghoapi.azureedge.net/api".

(** What the program puts in a query: a string or an integer. *)
Inductive QueryValue : Type :=
| QString (s : string)
| QInteger (z : Z).

Definition QueryValue_toString (v : QueryValue) : string :=
  match v with
  | QString s => s
  | QInteger z => Z_toString z
  end.

(** [value !== undefined && value !== null && value !== ''] *)
Definition isSet (v : QueryValue) : bool :=
  match v with
  | QString s => negb (s =? "")
  | QInteger _ => true
  end.

Definition hexDigit (n : nat) : ascii :=
  ascii_of_nat (if (n <? 10)%nat then 48 + n else 55 + n).

(** One byte under the application/x-www-form-urlencoded serialiser:
    letters, digits and [*-._] stay, a space becomes [+], the rest is
    percent-encoded in upper-case hexadecimal. *)
Definition urlencodeByte (c : ascii) : string :=
  let n := nat_of_ascii c in
  if (n =? 32)%nat then "+"
  else if ((48 <=? n) && (n <=? 57) || (65 <=? n) && (n <=? 90)
           || (97 <=? n) && (n <=? 122)
           || (n =? 42) || (n =? 45) || (n =? 46) || (n =? 95))%nat
  then String c EmptyString
  else String "%" (String (hexDigit (n / 16)) (String (hexDigit (n mod 16)) EmptyString)).

Fixpoint urlencode (s : string) : string :=
  match s with
  | EmptyString => EmptyString
  | String c rest => urlencodeByte c ++ urlencode rest
  end.

(** [new URLSearchParams()] after the [append]s, then [toString()] *)
Definition URLSearchParams_toString (entries : list (string * string)) : string :=
  join "&" (map (fun kv => urlencode (fst kv) ++ "=" ++ urlencode (snd kv)) entries).

(** The entries the [forEach] appends *)
Definition appended (params : list (string * QueryValue)) : list (string * string) :=
  map (fun kv => (fst kv, QueryValue_toString (snd kv)))
      (List.filter (fun kv => isSet (snd kv)) params).

Definition generateWhoODataUrl (endpoint : string)
    (params : list (string * QueryValue)) : string :=
  let url := WHO_ODATA_BASE_URL in
  let url := if negb (endpoint =? "") then url ++ "/" ++ endpoint else url in
  let queryString := URLSearchParams_toString (appended params) in
  if negb (queryString =? "") then url ++ "?" ++ queryString else url.

(** ** Response Normalizer *)

Definition SOURCE : string := "WHO Global Health Observatory (OData API)".

(** [r || d] where evaluating [r] may throw *)
Definition orDefault (r : Res JsVal) (d : JsVal) : Res JsVal :=
  match r with
  | inl e => inl e
  | inr v => inr (orElse v d)
  end.

(** [r || k] where [k] is evaluated only when [r] is falsy *)
Definition orElseLazy (r k : Res JsVal) : Res JsVal :=
  match r with
  | inl e => inl e
  | inr v => if truthy v then inr v else k
  end.

(** An object literal: the property values are evaluated in order and the
    first one that throws ends the evaluation. *)
Fixpoint fieldsOf (fields : list (string * Res JsVal)) : Res (list (string * JsVal)) :=
  match fields with
  | [] => inr []
  | (k, r) :: rest =>
      match r with
      | inl e => inl e
      | inr v =>
          match fieldsOf rest with
          | inl e => inl e
          | inr vs => inr ((k, v) :: vs)
          end
      end
  end.

Definition object (fields : list (string * Res JsVal)) : Res JsVal :=
  match fieldsOf fields with
  | inl e => inl e
  | inr vs => inr (JObj vs)
  end.

(** The shared shape of the four projections:
    [if (result?.value) for (const x of result.value) out.push(project x)] *)
Definition collect (result : JsVal) (project : JsVal -> Res JsVal) : Res (list JsVal) :=
  if truthy (optProp result "value") then
    match iterate (prop result "value") with
    | inl e => inl e
    | inr items => mapRes project items
    end
  else inr [].

Definition dimensionOf (dim : JsVal) : Res JsVal :=
  object [ ("code", orDefault (getProp dim "Code") (JStr ""));
           ("title", orDefault (getProp dim "Title") (JStr ""));
           ("description", orDefault (getProp dim "Description") (JStr "")) ].

Definition dimensionCodeOf (code : JsVal) : Res JsVal :=
  object [ ("code", orDefault (getProp code "Code") (JStr ""));
           ("title", orDefault (getProp code "Title") (JStr ""));
           ("description", orDefault (getProp code "Description") (JStr ""));
           ("parent_code", orDefault (getProp code "ParentCode") JNull) ].

Definition dataPointOf (indicator_code : string) (fact : JsVal) : Res JsVal :=
  object [ ("indicator", inr (JStr indicator_code));
           ("value", orDefault (orElseLazy (getProp fact "Value")
                                           (getProp fact "NumericValue")) (JStr ""));
           ("numeric_value", orDefault (getProp fact "NumericValue") JNull);
           ("display_value", orDefault (getProp fact "Value") (JStr ""));
           ("spatial_dim", orDefault (getProp fact "SpatialDim") (JStr ""));
           ("time_dim", orDefault (getProp fact "TimeDim") (JStr ""));
           ("time_dim_begin", orDefault (getProp fact "TimeDimensionBegin") (JStr ""));
           ("time_dim_end", orDefault (getProp fact "TimeDimensionEnd") (JStr ""));
           ("dim1", orDefault (getProp fact "Dim1") (JStr ""));
           ("dim2", orDefault (getProp fact "Dim2") (JStr ""));
           ("dim3", orDefault (getProp fact "Dim3") (JStr ""));
           ("comments", orDefault (getProp fact "Comments") (JStr ""));
           ("data_source_code", orDefault (getProp fact "DataSourceCode") (JStr "")) ].

Definition indicatorOf (indicator : JsVal) : Res JsVal :=
  object [ ("code", orDefault (getProp indicator "IndicatorCode") (JStr ""));
           ("name", orDefault (getProp indicator "IndicatorName") (JStr ""));
           ("category", orDefault (getProp indicator "Category") (JStr ""));
           ("definition", orDefault (getProp indicator "Definition") (JStr ""));
           ("method", orDefault (getProp indicator "Method") (JStr ""));
           ("interpretation", orDefault (getProp indicator "Interpretation") (JStr "")) ].

(** [xs.length] as a value *)
Definition lengthOf (xs : list JsVal) : JsVal := JNum (numberOfNat (List.length xs)).

(** [xs.map(f)] on a value: only an array has the method. *)
Definition arrayMap (v : Res JsVal) (f : JsVal -> Res JsVal) : Res (list JsVal) :=
  match v with
  | inl e => inl e
  | inr (JArr items) => mapRes f items
  | inr JUndefined | inr JNull => inl (TypeError (PropertyOfNullish "map"))
  | inr _ => inl (TypeError (NotAFunction "map"))
  end.

(** [xs.length] on a value; a string counts UTF-16 code units: one for each
    code point and one more for each four-byte sequence. *)
Fixpoint utf16Length (s : string) : nat :=
  match s with
  | EmptyString => 0
  | String c rest =>
      (if isContinuationByte c then 0 else 1)
      + (if (240 <=? nat_of_ascii c)%nat then 1 else 0) + utf16Length rest
  end.

Definition getLength (v : Res JsVal) : Res JsVal :=
  match v with
  | inl e => inl e
  | inr (JArr items) => inr (lengthOf items)
  | inr (JStr s) => inr (JNum (numberOfNat (utf16Length s)))
  | inr x => getProp x "length"
  end.

(** *** [Set]

    SameValueZero on two values read from different places of a decoded
    document: primitives compare by value, while two arrays or objects are
    two allocations and never the same value. *)
Definition sameValueZero (a b : JsVal) : bool :=
  match a, b with
  | JUndefined, JUndefined => true
  | JNull, JNull => true
  | JBool x, JBool y => Bool.eqb x y
  | JNum x, JNum y => Number_eqb x y
  | JStr x, JStr y => x =? y
  | _, _ => false
  end.

(** [set.add(x)]: the elements are kept in insertion order. *)
Definition Set_add (set : list JsVal) (x : JsVal) : list JsVal :=
  if existsb (sameValueZero x) set then set else (set ++ [x])%list.

(** [[...new Set(xs)]] *)
Definition newSet (xs : list JsVal) : list JsVal := fold_left Set_add xs [].

(** ** Filter composition *)

(** [filters.length > 0 ? filters.join(' and ') : null]; [None] is null. *)
Definition filterString (filters : list string) : option string :=
  if (0 <? List.length filters)%nat then Some (join " and " filters) else None.

(** [if (c) xs.push(x)] *)
Definition pushIf {A : Type} (c : bool) (x : A) (xs : list A) : list A :=
  if c then (xs ++ [x])%list else xs.

Definition getCountryData_filters (params : Params.t) : list string :=
  let filters := [] in
  let filters := pushIf (given (Params.country_code params))
                   ("SpatialDim eq '" ++ show (Params.country_code params) ++ "'") filters in
  let filters := pushIf (given (Params.year params))
                   ("TimeDim eq " ++ show (Params.year params)) filters in
  let filters := pushIf (given (Params.sex params))
                   ("Dim1 eq '" ++ show (Params.sex params) ++ "'") filters in
  filters.

(** [const [startYear, endYear] = years.split(':')], each rendered in a
    template *)
Definition nthShown (i : nat) (parts : list string) : string :=
  show (nth_error parts i).

Definition yearsClause (years : string) : string :=
  if includes ":" years then
    let parts := split ":" years in
    "TimeDim ge " ++ nthShown 0 parts ++ " and TimeDim le " ++ nthShown 1 parts
  else "TimeDim eq " ++ years.

Definition countriesClause (countries : string) : string :=
  let countryList :=
    join "," (map (fun c => "'" ++ trim c ++ "'") (split "," countries)) in
  "SpatialDim in (" ++ countryList ++ ")".

Definition getCrossTable_filters (params : Params.t) : list string :=
  let filters := [] in
  let filters := pushIf (given (Params.countries params))
                   (countriesClause (show (Params.countries params))) filters in
  let filters := pushIf (given (Params.years params))
                   (yearsClause (show (Params.years params))) filters in
  let filters := pushIf (given (Params.sex params))
                   ("Dim1 eq '" ++ show (Params.sex params) ++ "'") filters in
  filters.

(** The object [{ indicator_code, filter, top, orderby }] handed to
    [getHealthData] *)
Definition healthDataParams (indicator_code filter : option string) (top : option Z)
    (orderby : option string) : Params.t :=
  Params.mk None None indicator_code None top filter None None None None None None orderby.

(** [queryParams] of [getHealthData]; an absent [top] is [None]. *)
Definition getHealthData_queryParams (params : Params.t) : list (string * QueryValue) :=
  let queryParams := [] in
  let queryParams := pushIf (given (Params.filter params))
                       ("$filter", QString (show (Params.filter params))) queryParams in
  let queryParams := match Params.top params with
                     | Some top => pushIf (negb (top =? 0)%Z) ("$top", QInteger top) queryParams
                     | None => queryParams
                     end in
  let queryParams := pushIf (given (Params.orderby params))
                       ("$orderby", QString (show (Params.orderby params))) queryParams in
  queryParams.

(** What the tool handler answers: the serialised results, or the
    serialised [{ error: message }] of what its [try] block threw. *)
Inductive Reply : Type :=
| Results (results : JsVal)
| Failure (error : Exn).

(** ** The operations *)

Section Operations.

(** The transport: the failure message or the decoded body. *)
Variable transport : string -> string + JsVal.

Definition makeWhoODataRequest (url : string) : Run JsVal :=
  mkRun (match transport url with
         | inl message => inl (Error ("WHO OData API request failed: " ++ message))
         | inr data => inr data
         end) [url].

Definition getDimensions : Run JsVal :=
  let url := generateWhoODataUrl "Dimension" [] in
  result <- makeWhoODataRequest url ;;
  dimensions <- lift (collect result dimensionOf) ;;
  ret (JObj [ ("dimensions", JArr dimensions);
              ("total_count", lengthOf dimensions);
              ("source", JStr SOURCE);
              ("api_url", JStr url) ]).

Definition getDimensionCodes (dimensionCode : option string) : Run JsVal :=
  let url := generateWhoODataUrl
               ("DIMENSION/" ++ show dimensionCode ++ "/DimensionValues") [] in
  result <- makeWhoODataRequest url ;;
  codes <- lift (collect result dimensionCodeOf) ;;
  ret (JObj [ ("dimension", valueOf dimensionCode);
              ("codes", JArr codes);
              ("total_count", lengthOf codes);
              ("source", JStr SOURCE);
              ("api_url", JStr url) ]).

Definition getHealthData (params : Params.t) : Run JsVal :=
  let indicator_code := Params.indicator_code params in
  if negb (given indicator_code) then
    throw (Error "indicator_code parameter is required")
  else
    let url := generateWhoODataUrl (show indicator_code)
                 (getHealthData_queryParams params) in
    result <- makeWhoODataRequest url ;;
    healthData <- lift (collect result (dataPointOf (show indicator_code))) ;;
    ret (JObj [ ("indicator", valueOf indicator_code);
                ("data", JArr healthData);
                ("total_count", lengthOf healthData);
                ("source", JStr SOURCE);
                ("api_url", JStr url) ]).

Definition searchIndicators (keywords : option string) : Run JsVal :=
  let filter := "contains(IndicatorName,'" ++ show keywords ++ "')" in
  let url := generateWhoODataUrl "Indicator" [("$filter", QString filter)] in
  result <- makeWhoODataRequest url ;;
  indicators <- lift (collect result indicatorOf) ;;
  ret (JObj [ ("keywords", valueOf keywords);
              ("indicators", JArr indicators);
              ("total_count", lengthOf indicators);
              ("source", JStr SOURCE);
              ("api_url", JStr url) ]).

Definition getCountryData (params : Params.t) : Run JsVal :=
  if negb (given (Params.indicator_code params)) then
    throw (Error "indicator_code parameter is required")
  else
    getHealthData
      (healthDataParams (Params.indicator_code params)
         (filterString (getCountryData_filters params))
         (Params.top params)
         (Some "TimeDim desc")).

Definition getCrossTable (params : Params.t) : Run JsVal :=
  let top := match Params.top params with
             | Some top => Some top
             | None => Some 1000%Z
             end in
  if negb (given (Params.indicator_code params)) then
    throw (Error "indicator_code parameter is required")
  else
    healthData <- getHealthData
                    (healthDataParams (Params.indicator_code params)
                       (filterString (getCrossTable_filters params))
                       top
                       (Some "SpatialDim, TimeDim desc")) ;;
    lift (object
      [ ("indicator", inr (valueOf (Params.indicator_code params)));
        ("structured_data", getProp healthData "data");
        ("summary", object
           [ ("unique_countries",
              match arrayMap (getProp healthData "data")
                             (fun d => getProp d "spatial_dim") with
              | inl e => inl e
              | inr xs => inr (lengthOf (newSet xs))
              end);
             ("unique_years",
              match arrayMap (getProp healthData "data")
                             (fun d => getProp d "time_dim") with
              | inl e => inl e
              | inr xs => inr (lengthOf (newSet xs))
              end);
             ("total_records", getLength (getProp healthData "data")) ]);
        ("source", inr (JStr SOURCE));
        ("api_url", getProp healthData "api_url") ]).

(** *** The tool dispatcher ([src/index.js]) *)

Definition methodIs (args : Params.t) (name : string) : bool :=
  match Params.method args with
  | Some m => m =? name
  | None => false
  end.

(** The [try] block of the handler: the value it serialises. *)
Definition dispatch (args : Params.t) : Run JsVal :=
  if methodIs args "get_dimensions" then getDimensions
  else if methodIs args "get_dimension_codes" then
    if negb (given (Params.dimension_code args)) then
      throw (Error "dimension_code parameter is required for get_dimension_codes")
    else getDimensionCodes (Params.dimension_code args)
  else if methodIs args "get_health_data" then
    if negb (given (Params.indicator_code args)) then
      throw (Error "indicator_code parameter is required for get_health_data")
    else getHealthData args
  else if methodIs args "search_indicators" then
    if negb (given (Params.keywords args)) then
      throw (Error "keywords parameter is required for search_indicators")
    else searchIndicators (Params.keywords args)
  else if methodIs args "get_country_data" then
    if negb (given (Params.indicator_code args)) then
      throw (Error "indicator_code parameter is required for get_country_data")
    else getCountryData args
  else if methodIs args "get_cross_table" then
    if negb (given (Params.indicator_code args)) then
      throw (Error "indicator_code parameter is required for get_cross_table")
    else getCrossTable args
  else throw (Error ("Unknown method: " ++ show (Params.method args))).

Definition callTool (name : string) (args : Params.t) : Run Reply :=
  if negb (name =? "who-health") then throw (Error ("Unknown tool: " ++ name))
  else
    let run := dispatch args in
    mkRun (inr (match outcome run with
                | inr results => Results results
                | inl error => Failure error
                end)) (requests run).

End Operations.

(** ** Vocabulary of the specification *)

Inductive Operation : Type :=
| get_dimensions
| get_dimension_codes
| get_health_data
| search_indicators
| get_country_data
| get_cross_table.

(** The [method] under which the dispatcher runs the operation *)
Definition methodName (op : Operation) : string :=
  match op with
  | get_dimensions => "get_dimensions"
  | get_dimension_codes => "get_dimension_codes"
  | get_health_data => "get_health_data"
  | search_indicators => "search_indicators"
  | get_country_data => "get_country_data"
  | get_cross_table => "get_cross_table"
  end.

(** The field of the result that holds the result list *)
Definition listField (op : Operation) : string :=
  match op with
  | get_dimensions => "dimensions"
  | get_dimension_codes => "codes"
  | get_health_data => "data"
  | search_indicators => "indicators"
  | get_country_data => "data"
  | get_cross_table => "structured_data"
  end.

(** The parameter the operation requires is given *)
Definition requiredGiven (op : Operation) (args : Params.t) : bool :=
  match op with
  | get_dimensions => true
  | get_dimension_codes => given (Params.dimension_code args)
  | search_indicators => given (Params.keywords args)
  | get_health_data | get_country_data | get_cross_table =>
      given (Params.indicator_code args)
  end.

(** MissingParameter, as the operations of [who-api.js] raise it and as the
    dispatcher raises it: both name the missing field. *)
Definition MissingParameter (field : string) : Exn :=
  Error (field ++ " parameter is required").

Definition MissingParameterFor (field method : string) : Exn :=
  Error (field ++ " parameter is required for " ++ method).

(** The result carries [total_count], equal to the length of its list. *)
Definition hasTotalCount (op : Operation) (r : JsVal) : Prop :=
  exists items, prop r (listField op) = JArr items
                /\ hasField r "total_count" = true
                /\ prop r "total_count" = JNum (numberOfNat (List.length items)).

(** The cross table carries its record count in [summary.total_records] and
    has no [total_count]. *)
Definition hasTotalRecords (r : JsVal) : Prop :=
  exists items, prop r "structured_data" = JArr items
                /\ hasField r "total_count" = false
                /\ prop (prop r "summary") "total_records"
                   = JNum (numberOfNat (List.length items)).

(** The number of distinct values in a list, following the words of the
    specification: a value counts once, at its last occurrence. *)
Fixpoint distinctCount (xs : list JsVal) : nat :=
  match xs with
  | [] => 0
  | x :: rest => (if existsb (sameValueZero x) rest then 0 else 1) + distinctCount rest
  end.

(** The number of distinct values of [xs] that are not among [seen] *)
Fixpoint distinctOutside (seen xs : list JsVal) : nat :=
  match xs with
  | [] => 0
  | x :: rest =>
      (if existsb (sameValueZero x) seen || existsb (sameValueZero x) rest then 0 else 1)
      + distinctOutside seen rest
  end.

Definition isPrimitive (v : JsVal) : bool :=
  match v with
  | JArr _ | JObj _ => false
  | _ => true
  end.

Definition isObject (v : JsVal) : bool :=
  match v with
  | JObj _ => true
  | _ => false
  end.

(** The count that accompanies the result list of an operation *)
Definition countOf (op : Operation) (r : JsVal) : JsVal :=
  match op with
  | get_cross_table => prop (prop r "summary") "total_records"
  | _ => prop r "total_count"
  end.

(** The object [getHealthData] returns for the data points [healthData]
    fetched from [url] *)
Definition healthDataResult (indicator_code : option string) (healthData : list JsVal)
    (url : string) : JsVal :=
  JObj [ ("indicator", valueOf indicator_code);
         ("data", JArr healthData);
         ("total_count", lengthOf healthData);
         ("source", JStr SOURCE);
         ("api_url", JStr url) ].

(** The object [getCrossTable] returns for the data points [structured_data] *)
Definition crossTableResult (indicator_code : option string)
    (structured_data : list JsVal) (api_url : string) : JsVal :=
  JObj [ ("indicator", valueOf indicator_code);
         ("structured_data", JArr structured_data);
         ("summary", JObj
            [ ("unique_countries",
               lengthOf (newSet (map (fun d => prop d "spatial_dim") structured_data)));
              ("unique_years",
               lengthOf (newSet (map (fun d => prop d "time_dim") structured_data)));
              ("total_records", lengthOf structured_data) ]);
         ("source", JStr SOURCE);
         ("api_url", JStr api_url) ].

(** The URL [getHealthData] requests *)
Definition healthDataUrl (params : Params.t) : string :=
  generateWhoODataUrl (show (Params.indicator_code params))
    (getHealthData_queryParams params).

(** The parameters [getCountryData] and [getCrossTable] hand on *)
Definition countryDataQuery (params : Params.t) : Params.t :=
  healthDataParams (Params.indicator_code params)
    (filterString (getCountryData_filters params))
    (Params.top params)
    (Some "TimeDim desc").

Definition crossTableQuery (params : Params.t) : Params.t :=
  healthDataParams (Params.indicator_code params)
    (filterString (getCrossTable_filters params))
    (match Params.top params with
     | Some top => Some top
     | None => Some 1000%Z
     end)
    (Some "SpatialDim, TimeDim desc").

(** The [$top] entry of a query: present unless [top] is absent or 0 *)
Definition topEntry (top : option Z) : list (string * string) :=
  match top with
  | Some t => if (t =? 0)%Z then [] else [("$top", Z_toString t)]
  | None => []
  end.

(** ** Sample data *)

Definition always (payload : JsVal) : string -> string + JsVal :=
  fun _ => inr payload.

Definition onlyIndicator (code : string) : Params.t :=
  healthDataParams (Some code) None None None.

Definition withMethod (op : Operation) (args : Params.t) : Params.t :=
  Params.mk (Some (methodName op))
    (Params.dimension_code args) (Params.indicator_code args) (Params.keywords args)
    (Params.top args) (Params.filter args) (Params.country_code args)
    (Params.region_code args) (Params.year args) (Params.countries args)
    (Params.years args) (Params.sex args) (Params.orderby args).

(** [{Value:"12.3", SpatialDim:"USA", TimeDim:2019}] *)
Definition usa2019 : JsVal :=
  JObj [ ("Value", JStr "12.3"); ("SpatialDim", JStr "USA");
         ("TimeDim", JNum (numberOfZ 2019)) ].

(** [get-cross-table({indicator_code:"X", countries:"USA,FRA", years:"2018:2020"})] *)
Definition crossTableScenario : Params.t :=
  Params.mk None None (Some "X") None None None None None None
    (Some "USA,FRA") (Some "2018:2020") None None.

(** [get-country-data({indicator_code:"X", year:"2015:2020"})] *)
Definition countryYearRange : Params.t :=
  Params.mk None None (Some "X") None None None None None (Some "2015:2020")
    None None None None.

(** The data point of [usa2019] under the indicator [indicator_code] *)
Definition usa2019Point (indicator_code : string) : JsVal :=
  JObj [ ("indicator", JStr indicator_code); ("value", JStr "12.3");
         ("numeric_value", JNull); ("display_value", JStr "12.3");
         ("spatial_dim", JStr "USA"); ("time_dim", JNum (numberOfZ 2019));
         ("time_dim_begin", JStr ""); ("time_dim_end", JStr ""); ("dim1", JStr "");
         ("dim2", JStr ""); ("dim3", JStr ""); ("comments", JStr "");
         ("data_source_code", JStr "") ].

(** [{NumericValue: 71.5, SpatialDim: "FRA"}]: no [Value], no [TimeDim] *)
Definition numericOnly : JsVal :=
  JObj [ ("NumericValue", JNum (Finite (Q2Qc (143 # 2)))); ("SpatialDim", JStr "FRA") ].

(** Three records: a duplicate and one without place and year *)
Definition mixedRecords : JsVal :=
  JObj [("value", JArr [usa2019; numericOnly; usa2019; JObj []])].

(** What get-health-data returns for two records *)
Definition twoRecords : JsVal := JObj [("value", JArr [usa2019; usa2019])].

Definition twoRecordsResult : JsVal :=
  healthDataResult (Some "X") [usa2019Point "X"; usa2019Point "X"]
    "https://ghoapi.azureedge.net/api/X".

(** ** Vocabulary of the further properties *)

(** The characters that the serialiser of a query leaves in a name or in a
    value: letters, digits, [*-._], and the [+] and [%] of its escapes. *)
Definition urlSafe (c : ascii) : bool :=
  let n := nat_of_ascii c in
  ((48 <=? n) && (n <=? 57) || (65 <=? n) && (n <=? 90) || (97 <=? n) && (n <=? 122)
   || (n =? 42) || (n =? 45) || (n =? 46) || (n =? 95) || (n =? 43) || (n =? 37))%nat.



(** The methods the tool advertises: the [enum] of [method] in its input
    schema. *)
Definition methodEnum : list string :=
  [ "get_dimensions"; "get_dimension_codes"; "get_health_data"; "search_indicators";
    "get_country_data"; "get_cross_table" ].

(** The projection an operation applies to each record of the payload *)
Definition projectionOf (op : Operation) (args : Params.t) : JsVal -> Res JsVal :=
  match op with
  | get_dimensions => dimensionOf
  | get_dimension_codes => dimensionCodeOf
  | search_indicators => indicatorOf
  | get_health_data | get_country_data | get_cross_table =>
      dataPointOf (show (Params.indicator_code args))
  end.

(** The field a projection reads first from a record *)
Definition firstKey (op : Operation) : string :=
  match op with
  | get_dimensions | get_dimension_codes => "Code"
  | search_indicators => "IndicatorCode"
  | get_health_data | get_country_data | get_cross_table => "Value"
  end.

(** The URL an operation requests *)
Definition requestOf (op : Operation) (args : Params.t) : string :=
  match op with
  | get_dimensions => generateWhoODataUrl "Dimension" []
  | get_dimension_codes =>
      generateWhoODataUrl
        ("DIMENSION/" ++ show (Params.dimension_code args) ++ "/DimensionValues") []
  | search_indicators =>
      generateWhoODataUrl "Indicator"
        [("$filter",
          QString ("contains(IndicatorName,'" ++ show (Params.keywords args) ++ "')"))]
  | get_health_data => healthDataUrl args
  | get_country_data => healthDataUrl (countryDataQuery args)
  | get_cross_table => healthDataUrl (crossTableQuery args)
  end.

(** The same call with another [region_code] *)
Definition withRegionCode (region_code : option string) (args : Params.t) : Params.t :=
  Params.mk (Params.method args)
    (Params.dimension_code args) (Params.indicator_code args) (Params.keywords args)
    (Params.top args) (Params.filter args) (Params.country_code args)
    region_code (Params.year args) (Params.countries args)
    (Params.years args) (Params.sex args) (Params.orderby args).

(** The same call with another [filter] and another [orderby] *)
Definition withFilterOrder (filter orderby : option string) (args : Params.t) : Params.t :=
  Params.mk (Params.method args)
    (Params.dimension_code args) (Params.indicator_code args) (Params.keywords args)
    (Params.top args) filter (Params.country_code args)
    (Params.region_code args) (Params.year args) (Params.countries args)
    (Params.years args) (Params.sex args) orderby.

(** The same call with another [top] *)
Definition withTop (top : option Z) (args : Params.t) : Params.t :=
  Params.mk (Params.method args)
    (Params.dimension_code args) (Params.indicator_code args) (Params.keywords args)
    top (Params.filter args) (Params.country_code args)
    (Params.region_code args) (Params.year args) (Params.countries args)
    (Params.years args) (Params.sex args) (Params.orderby args).

(** The [$filter] and [$orderby] entries of a query: present when the text
    is given and not empty *)
Definition textEntry (key : string) (text : option string) : list (string * string) :=
  if given text then [(key, show text)] else [].

(** A country code between quotes, as the countries clause lists it *)
Definition quoted (c : string) : string := "'" ++ trim c ++ "'".

(** The fields of an entry of the result list, in order *)
Definition entryKeys (op : Operation) : list string :=
  match op with
  | get_dimensions => ["code"; "title"; "description"]
  | get_dimension_codes => ["code"; "title"; "description"; "parent_code"]
  | search_indicators =>
      ["code"; "name"; "category"; "definition"; "method"; "interpretation"]
  | get_health_data | get_country_data | get_cross_table =>
      [ "indicator"; "value"; "numeric_value"; "display_value"; "spatial_dim";
        "time_dim"; "time_dim_begin"; "time_dim_end"; "dim1"; "dim2"; "dim3";
        "comments"; "data_source_code" ]
  end.

(** An entry with the fields [keys], none of them undefined *)
Definition wellFormedEntry (keys : list string) (entry : JsVal) : Prop :=
  exists fields,
    entry = JObj fields
    /\ map fst fields = keys
    /\ Forall (fun kv => snd kv <> JUndefined) fields.

(** The parameter an operation requires, if it requires one *)
Definition requiredField (op : Operation) : option string :=
  match op with
  | get_dimensions => None
  | get_dimension_codes => Some "dimension_code"
  | search_indicators => Some "keywords"
  | get_health_data | get_country_data | get_cross_table => Some "indicator_code"
  end.


(** A payload with a record that is null, and one whose [value] is true *)
Definition nullRecord : JsVal := JObj [("value", JArr [usa2019; JNull])].

Definition trueValue : JsVal := JObj [("value", JBool true)].

(** The message of a failed request, as [makeWhoODataRequest] wraps it *)
Definition UpstreamRequestFailed (message : string) : Exn :=
  Error ("WHO OData API request failed: " ++ message).

(** The transport that fails on every URL *)
Definition unreachable (message : string) : string -> string + JsVal :=
  fun _ => inl message.

(** ** Checks of the string and URL primitives *)

Example split_countries : split "," "USA,FRA" = ["USA"; "FRA"].
Proof. reflexivity. Qed.

Example split_trailing : split ":" "2018:" = ["2018"; ""].
Proof. reflexivity. Qed.

Example trim_spaces : trim "  FRA " = "FRA".
Proof. reflexivity. Qed.

Example codePoints_ascii : codePoints "ab" = ["a"; "b"].
Proof. reflexivity. Qed.

Example Z_toString_1000 : Z_toString 1000 = "1000".
Proof. reflexivity. Qed.

Example url_plain : generateWhoODataUrl "Dimension" [] =
  "https://ghoapi.azureedge.net/api/Dimension".
Proof. reflexivity. Qed.

Example url_query :
  generateWhoODataUrl "X" [("$filter", QString "Dim1 eq 'MLE'"); ("$top", QInteger 10)] =
  "https://ghoapi.azureedge.net/api/X?%24filter=Dim1+eq+%27MLE%27&%24top=10".
Proof. reflexivity. Qed.

(** ** Outcomes and loops *)

Lemma bind_requests_lift {A B : Type} (m : Run A) (f : A -> Res B) :
  requests (x <- m ;; lift (f x)) = requests m.
Proof.
  unfold bind. destruct (outcome m); simpl; [reflexivity | apply app_nil_r].
Qed.

Lemma bind_outcome {A B : Type} (m : Run A) (f : A -> Run B) (b : B) :
  outcome (x <- m ;; f x) = inr b ->
  exists a, outcome m = inr a /\ outcome (f a) = inr b.
Proof.
  unfold bind. destruct (outcome m) as [e | a]; simpl; intros H.
  - discriminate.
  - exists a. split; [reflexivity | exact H].
Qed.

Lemma mapRes_length {A B : Type} (f : A -> Res B) (xs : list A) (ys : list B) :
  mapRes f xs = inr ys -> List.length ys = List.length xs.
Proof.
  revert ys. induction xs as [| x rest IH]; simpl; intros ys H.
  - inversion H. reflexivity.
  - destruct (f x) as [e | y]; [discriminate |].
    destruct (mapRes f rest) as [e | ys']; [discriminate |].
    inversion H. simpl. f_equal. apply IH. reflexivity.
Qed.

Lemma mapRes_Forall {A B : Type} (P : B -> Prop) (f : A -> Res B) (xs : list A) :
  (forall x y, f x = inr y -> P y) ->
  forall ys, mapRes f xs = inr ys -> Forall P ys.
Proof.
  intros Hf. induction xs as [| x rest IH]; simpl; intros ys H.
  - inversion H. constructor.
  - destruct (f x) as [e | y] eqn:Hx; [discriminate |].
    destruct (mapRes f rest) as [e | ys']; [discriminate |].
    inversion H. constructor; [eapply Hf; eassumption | apply IH; reflexivity].
Qed.

Lemma mapRes_total {A B : Type} (f : A -> Res B) (g : A -> B) (xs : list A) :
  Forall (fun x => f x = inr (g x)) xs -> mapRes f xs = inr (map g xs).
Proof.
  induction 1 as [| x rest Hx _ IH]; simpl.
  - reflexivity.
  - rewrite Hx, IH. reflexivity.
Qed.

(** A payload without a truthy [value] gives the empty list. *)
Lemma collect_no_value (result : JsVal) (project : JsVal -> Res JsVal) :
  truthy (optProp result "value") = false -> collect result project = inr [].
Proof. unfold collect. intros ->. reflexivity. Qed.

(** A payload with a list of records gives one projection per record. *)
Lemma collect_list (result : JsVal) (project : JsVal -> Res JsVal) (items : list JsVal) :
  optProp result "value" = JArr items -> collect result project = mapRes project items.
Proof.
  unfold collect, optProp. destruct (isNullish result); [discriminate |].
  intros ->. reflexivity.
Qed.

(** One request, then steps that request nothing. *)
Lemma request_then {B : Type} (transport : string -> string + JsVal) (url : string)
    (k : JsVal -> Run B) :
  (forall result, requests (k result) = []) ->
  requests (result <- makeWhoODataRequest transport url ;; k result) = [url].
Proof.
  intros Hk. unfold bind, makeWhoODataRequest. simpl.
  destruct (transport url); simpl; [reflexivity | rewrite Hk; reflexivity].
Qed.

Lemma lift_then_ret {A B : Type} (r : Res A) (f : A -> B) :
  requests (x <- lift r ;; ret (f x)) = [].
Proof. destruct r; reflexivity. Qed.

(** ** Missing parameters *)

Section MissingParameters.

Variable transport : string -> string + JsVal.

Lemma getHealthData_missing (params : Params.t) :
  given (Params.indicator_code params) = false ->
  getHealthData transport params = throw (MissingParameter "indicator_code").
Proof. unfold getHealthData. intros ->. reflexivity. Qed.

Lemma getCountryData_missing (params : Params.t) :
  given (Params.indicator_code params) = false ->
  getCountryData transport params = throw (MissingParameter "indicator_code").
Proof. unfold getCountryData. intros ->. reflexivity. Qed.

Lemma getCrossTable_missing (params : Params.t) :
  given (Params.indicator_code params) = false ->
  getCrossTable transport params = throw (MissingParameter "indicator_code").
Proof. unfold getCrossTable. intros ->. reflexivity. Qed.

(** The dispatcher checks the required parameter of an operation before it
    calls the operation. *)
Lemma dispatch_missing (op : Operation) (args : Params.t) (field : string) :
  Params.method args = Some (methodName op) ->
  requiredGiven op args = false ->
  field = match op with
          | get_dimension_codes => "dimension_code"
          | search_indicators => "keywords"
          | _ => "indicator_code"
          end ->
  dispatch transport args = throw (MissingParameterFor field (methodName op)).
Proof.
  intros Hm Hreq ->. unfold dispatch, methodIs. rewrite Hm.
  destruct op; simpl in *; try discriminate; rewrite Hreq; reflexivity.
Qed.


(** C5. Without an indicator code, get-health-data, get-country-data and
    get-cross-table each fail with MissingParameter and request nothing. *)
Theorem missing_indicator_code (params : Params.t) :
  Params.indicator_code params = None ->
  (outcome (getHealthData transport params) = inl (MissingParameter "indicator_code")
   /\ requests (getHealthData transport params) = [])
  /\ (outcome (getCountryData transport params) = inl (MissingParameter "indicator_code")
      /\ requests (getCountryData transport params) = [])
  /\ (outcome (getCrossTable transport params) = inl (MissingParameter "indicator_code")
      /\ requests (getCrossTable transport params) = []).
Proof.
  intros Hnone.
  assert (Hg : given (Params.indicator_code params) = false)
    by (rewrite Hnone; reflexivity).
  rewrite getHealthData_missing, getCountryData_missing, getCrossTable_missing by exact Hg.
  repeat split; reflexivity.
Qed.

(** Through the dispatcher the three operations fail the same way, the
    message naming the method as well. *)
Lemma dispatch_missing_indicator_code (op : Operation) (args : Params.t) :
  op = get_health_data \/ op = get_country_data \/ op = get_cross_table ->
  Params.method args = Some (methodName op) ->
  Params.indicator_code args = None ->
  dispatch transport args = throw (MissingParameterFor "indicator_code" (methodName op)).
Proof.
  intros Hop Hm Hnone. apply dispatch_missing; [exact Hm | |].
  - destruct Hop as [-> | [-> | ->]]; simpl; rewrite Hnone; reflexivity.
  - destruct Hop as [-> | [-> | ->]]; reflexivity.
Qed.

(** Called directly, [getDimensionCodes] and [searchIndicators] do not
    check their argument: an undefined argument is rendered into the URL
    and requested. *)
Lemma getDimensionCodes_unchecked :
  requests (getDimensionCodes transport None)
  = ["https://ghoapi.azureedge.net/api/DIMENSION/undefined/DimensionValues"].
Proof.
  unfold getDimensionCodes. apply request_then. intros result. apply lift_then_ret.
Qed.

Lemma searchIndicators_unchecked :
  requests (searchIndicators transport None)
  = ["https://ghoapi.azureedge.net/api/Indicator?%24filter=contains%28IndicatorName%2C%27undefined%27%29"].
Proof.
  unfold searchIndicators. apply request_then. intros result. apply lift_then_ret.
Qed.

End MissingParameters.


Lemma missing_keywords_example :
  outcome (dispatch (always JNull) (withMethod search_indicators Params.empty))
  = inl (Error "keywords parameter is required for search_indicators")
  /\ requests (dispatch (always JNull) (withMethod search_indicators Params.empty)) = [].
Proof. split; reflexivity. Qed.

Lemma missing_indicator_code_witness :
  Params.indicator_code Params.empty = None
  /\ (outcome (getHealthData (always JNull) Params.empty)
      = inl (Error "indicator_code parameter is required")
      /\ requests (getHealthData (always JNull) Params.empty) = [])
  /\ (outcome (getCountryData (always JNull) Params.empty)
      = inl (Error "indicator_code parameter is required")
      /\ requests (getCountryData (always JNull) Params.empty) = [])
  /\ (outcome (getCrossTable (always JNull) Params.empty)
      = inl (Error "indicator_code parameter is required")
      /\ requests (getCrossTable (always JNull) Params.empty) = []).
Proof.
  split; [reflexivity |].
  exact (missing_indicator_code (always JNull) Params.empty eq_refl).
Defined.

(** ** The result envelope *)

Lemma object_isObject (fields : list (string * Res JsVal)) (v : JsVal) :
  object fields = inr v -> isObject v = true.
Proof.
  unfold object. destruct (fieldsOf fields); intros H; inversion H. reflexivity.
Qed.

Lemma collect_Forall (P : JsVal -> Prop) (result : JsVal) (project : JsVal -> Res JsVal) :
  (forall x y, project x = inr y -> P y) ->
  forall ys, collect result project = inr ys -> Forall P ys.
Proof.
  intros Hp ys. unfold collect.
  destruct (truthy (optProp result "value")).
  - destruct (iterate (prop result "value")) as [e | items]; [discriminate |].
    apply mapRes_Forall. exact Hp.
  - intros H. inversion H. constructor.
Qed.

Section Envelope.

Variable transport : string -> string + JsVal.

(** The shape the four listing operations share: request, collect, wrap. *)
Lemma listing_outcome (url : string) (project : JsVal -> Res JsVal)
    (wrap : list JsVal -> JsVal) (r : JsVal) :
  outcome (result <- makeWhoODataRequest transport url ;;
           xs <- lift (collect result project) ;;
           ret (wrap xs)) = inr r ->
  exists result xs,
    transport url = inr result /\ collect result project = inr xs /\ r = wrap xs.
Proof.
  intros H. apply bind_outcome in H. destruct H as [result [Hreq H]].
  apply bind_outcome in H. destruct H as [xs [Hxs H]].
  unfold makeWhoODataRequest in Hreq. simpl in Hreq, Hxs, H.
  destruct (transport url) as [message | data] eqn:Ht; [discriminate |].
  inversion Hreq; subst data. inversion H.
  exists result, xs. repeat split. exact Hxs.
Qed.

Lemma listing_returns (url : string) (project : JsVal -> Res JsVal)
    (wrap : list JsVal -> JsVal) (result : JsVal) (xs : list JsVal) :
  transport url = inr result ->
  collect result project = inr xs ->
  outcome (result <- makeWhoODataRequest transport url ;;
           xs <- lift (collect result project) ;;
           ret (wrap xs)) = inr (wrap xs).
Proof.
  intros Ht Hxs. unfold bind, makeWhoODataRequest, lift. simpl.
  rewrite Ht. simpl. rewrite Hxs. reflexivity.
Qed.

Lemma getDimensions_total_count (r : JsVal) :
  outcome (getDimensions transport) = inr r -> hasTotalCount get_dimensions r.
Proof.
  intros H. apply listing_outcome in H. destruct H as [result [xs [_ [_ ->]]]].
  exists xs. repeat split.
Qed.

Lemma getDimensionCodes_total_count (dimensionCode : option string) (r : JsVal) :
  outcome (getDimensionCodes transport dimensionCode) = inr r ->
  hasTotalCount get_dimension_codes r.
Proof.
  intros H. apply listing_outcome in H. destruct H as [result [xs [_ [_ ->]]]].
  exists xs. repeat split.
Qed.

Lemma searchIndicators_total_count (keywords : option string) (r : JsVal) :
  outcome (searchIndicators transport keywords) = inr r ->
  hasTotalCount search_indicators r.
Proof.
  intros H. apply listing_outcome in H. destruct H as [result [xs [_ [_ ->]]]].
  exists xs. repeat split.
Qed.

(** What [getHealthData] returns, when it returns. *)
Lemma getHealthData_outcome (params : Params.t) (r : JsVal) :
  outcome (getHealthData transport params) = inr r ->
  exists result healthData,
    given (Params.indicator_code params) = true
    /\ transport (healthDataUrl params) = inr result
    /\ collect result (dataPointOf (show (Params.indicator_code params))) = inr healthData
    /\ r = healthDataResult (Params.indicator_code params) healthData
             (healthDataUrl params).
Proof.
  unfold getHealthData. destruct (given (Params.indicator_code params)); simpl.
  - intros H. apply listing_outcome in H. destruct H as [result [xs [Ht [Hxs ->]]]].
    exists result, xs. repeat split; assumption.
  - discriminate.
Qed.

Lemma getHealthData_returns (params : Params.t) (result : JsVal) (healthData : list JsVal) :
  given (Params.indicator_code params) = true ->
  transport (healthDataUrl params) = inr result ->
  collect result (dataPointOf (show (Params.indicator_code params))) = inr healthData ->
  outcome (getHealthData transport params)
  = inr (healthDataResult (Params.indicator_code params) healthData (healthDataUrl params)).
Proof.
  intros Hg Ht Hxs. unfold getHealthData. rewrite Hg. simpl.
  apply (listing_returns _ _
           (fun xs => healthDataResult (Params.indicator_code params) xs
                        (healthDataUrl params)) result); assumption.
Qed.

Lemma getHealthData_total_count (params : Params.t) (r : JsVal) :
  outcome (getHealthData transport params) = inr r -> hasTotalCount get_health_data r.
Proof.
  intros H. apply getHealthData_outcome in H.
  destruct H as [result [xs [_ [_ [_ ->]]]]]. exists xs. repeat split.
Qed.

Lemma getCountryData_total_count (params : Params.t) (r : JsVal) :
  outcome (getCountryData transport params) = inr r -> hasTotalCount get_country_data r.
Proof.
  unfold getCountryData. destruct (given (Params.indicator_code params)); simpl.
  - intros H. apply getHealthData_total_count in H. exact H.
  - discriminate.
Qed.

(** Every data point is an object, so reading a field of it cannot throw. *)
Lemma dataPoints_are_objects (result : JsVal) (indicator_code : string)
    (healthData : list JsVal) :
  collect result (dataPointOf indicator_code) = inr healthData ->
  Forall (fun d => isObject d = true) healthData.
Proof.
  apply collect_Forall. intros x y. unfold dataPointOf. apply object_isObject.
Qed.

Lemma read_fields (k : string) (xs : list JsVal) :
  Forall (fun d => isObject d = true) xs ->
  mapRes (fun d => getProp d k) xs = inr (map (fun d => prop d k) xs).
Proof.
  intros H. apply mapRes_total. eapply Forall_impl; [| exact H].
  intros d Hd. destruct d; try discriminate. reflexivity.
Qed.

Lemma getCountryData_delegates (params : Params.t) :
  given (Params.indicator_code params) = true ->
  getCountryData transport params = getHealthData transport (countryDataQuery params).
Proof. unfold getCountryData. intros ->. reflexivity. Qed.

(** The summary over the data points that [getHealthData] returned *)
Lemma crossTable_of_healthData (indicator_code : option string)
    (healthData : list JsVal) (url : string) :
  Forall (fun d => isObject d = true) healthData ->
  object
    [ ("indicator", inr (valueOf indicator_code));
      ("structured_data", getProp (healthDataResult indicator_code healthData url) "data");
      ("summary", object
         [ ("unique_countries",
            match arrayMap (getProp (healthDataResult indicator_code healthData url) "data")
                           (fun d => getProp d "spatial_dim") with
            | inl e => inl e
            | inr xs => inr (lengthOf (newSet xs))
            end);
           ("unique_years",
            match arrayMap (getProp (healthDataResult indicator_code healthData url) "data")
                           (fun d => getProp d "time_dim") with
            | inl e => inl e
            | inr xs => inr (lengthOf (newSet xs))
            end);
           ("total_records",
            getLength (getProp (healthDataResult indicator_code healthData url) "data")) ]);
      ("source", inr (JStr SOURCE));
      ("api_url", getProp (healthDataResult indicator_code healthData url) "api_url") ]
  = inr (crossTableResult indicator_code healthData url).
Proof.
  intros Hobj. unfold object. simpl.
  rewrite !read_fields by exact Hobj. reflexivity.
Qed.

(** What [getCrossTable] returns, when it returns. *)
Lemma getCrossTable_outcome (params : Params.t) (r : JsVal) :
  outcome (getCrossTable transport params) = inr r ->
  exists result structured_data,
    given (Params.indicator_code params) = true
    /\ transport (healthDataUrl (crossTableQuery params)) = inr result
    /\ collect result (dataPointOf (show (Params.indicator_code params)))
       = inr structured_data
    /\ Forall (fun d => isObject d = true) structured_data
    /\ r = crossTableResult (Params.indicator_code params) structured_data
             (healthDataUrl (crossTableQuery params)).
Proof.
  unfold getCrossTable. fold (crossTableQuery params).
  destruct (given (Params.indicator_code params)); simpl.
  - intros H. apply bind_outcome in H. destruct H as [healthData [Hh H]].
    apply getHealthData_outcome in Hh.
    destruct Hh as [result [xs [_ [Ht [Hxs ->]]]]].
    pose proof (dataPoints_are_objects _ _ _ Hxs) as Hobj.
    simpl in H. change (Params.indicator_code (crossTableQuery params))
      with (Params.indicator_code params) in H.
    rewrite (crossTable_of_healthData _ _ _ Hobj) in H. inversion H.
    exists result, xs. repeat split; assumption.
  - discriminate.
Qed.

Lemma getCrossTable_returns (params : Params.t) (result : JsVal)
    (structured_data : list JsVal) :
  given (Params.indicator_code params) = true ->
  transport (healthDataUrl (crossTableQuery params)) = inr result ->
  collect result (dataPointOf (show (Params.indicator_code params)))
  = inr structured_data ->
  outcome (getCrossTable transport params)
  = inr (crossTableResult (Params.indicator_code params) structured_data
           (healthDataUrl (crossTableQuery params))).
Proof.
  intros Hg Ht Hxs. unfold getCrossTable. fold (crossTableQuery params).
  rewrite Hg. simpl. unfold bind.
  rewrite (getHealthData_returns (crossTableQuery params) result structured_data)
    by assumption.
  simpl. change (Params.indicator_code (crossTableQuery params))
    with (Params.indicator_code params).
  apply crossTable_of_healthData. eapply dataPoints_are_objects. exact Hxs.
Qed.

Lemma getCrossTable_total_records (params : Params.t) (r : JsVal) :
  outcome (getCrossTable transport params) = inr r -> hasTotalRecords r.
Proof.
  intros H. apply getCrossTable_outcome in H.
  destruct H as [result [xs [_ [_ [_ [_ ->]]]]]]. exists xs. repeat split.
Qed.

(** C1, amended. Whatever an operation returns carries the length of its
    result list: as [total_count] for the five operations that return an
    envelope, and as [summary.total_records] for get-cross-table, whose
    result has no [total_count]. *)
Theorem count_is_length_of_list (op : Operation) (args : Params.t) (r : JsVal) :
  Params.method args = Some (methodName op) ->
  outcome (dispatch transport args) = inr r ->
  match op with
  | get_cross_table => hasTotalRecords r
  | _ => hasTotalCount op r
  end.
Proof.
  intros Hm. unfold dispatch, methodIs. rewrite Hm.
  destruct op; simpl.
  - apply getDimensions_total_count.
  - destruct (given (Params.dimension_code args)); simpl;
      [apply getDimensionCodes_total_count | discriminate].
  - destruct (given (Params.indicator_code args)); simpl;
      [apply getHealthData_total_count | discriminate].
  - destruct (given (Params.keywords args)); simpl;
      [apply searchIndicators_total_count | discriminate].
  - destruct (given (Params.indicator_code args)); simpl;
      [apply getCountryData_total_count | discriminate].
  - destruct (given (Params.indicator_code args)); simpl;
      [apply getCrossTable_total_records | discriminate].
Qed.

End Envelope.

(** ** Payloads without a list *)

Section NoValue.

Variable transport : string -> string + JsVal.
Variable payload : JsVal.
Hypothesis answers : forall url, transport url = inr payload.
Hypothesis no_value : truthy (optProp payload "value") = false.

Lemma getHealthData_no_value (params : Params.t) :
  given (Params.indicator_code params) = true ->
  outcome (getHealthData transport params)
  = inr (healthDataResult (Params.indicator_code params) [] (healthDataUrl params)).
Proof.
  intros Hg. apply (getHealthData_returns transport params payload);
    [exact Hg | apply answers | apply collect_no_value; exact no_value].
Qed.

(** C2, amended. When the [value] of the payload is absent, null or
    another falsy value, every operation whose required parameter is given
    returns the empty list with the count 0, and does not throw. *)
Theorem no_value_gives_empty_result (op : Operation) (args : Params.t) :
  Params.method args = Some (methodName op) ->
  requiredGiven op args = true ->
  exists r,
    outcome (dispatch transport args) = inr r
    /\ prop r (listField op) = JArr []
    /\ countOf op r = JNum (numberOfNat 0).
Proof.
  intros Hm Hreq. unfold dispatch, methodIs. rewrite Hm.
  destruct op; simpl in Hreq |- *; try rewrite Hreq; simpl.
  - eexists. split.
    + apply (listing_returns transport _ dimensionOf _ payload []);
        [apply answers | apply collect_no_value; exact no_value].
    + split; reflexivity.
  - eexists. split.
    + apply (listing_returns transport _ dimensionCodeOf _ payload []);
        [apply answers | apply collect_no_value; exact no_value].
    + split; reflexivity.
  - eexists. split; [apply getHealthData_no_value; exact Hreq |].
    split; reflexivity.
  - eexists. split.
    + apply (listing_returns transport _ indicatorOf _ payload []);
        [apply answers | apply collect_no_value; exact no_value].
    + split; reflexivity.
  - rewrite getCountryData_delegates by exact Hreq.
    eexists. split; [apply getHealthData_no_value; exact Hreq |].
    split; reflexivity.
  - eexists. split.
    + apply (getCrossTable_returns transport args payload []);
        [exact Hreq | apply answers | apply collect_no_value; exact no_value].
    + split; reflexivity.
Qed.

End NoValue.

(** ** Payloads with a list of records *)

Ltac projects :=
  let H := fresh in
  intros H; unfold getProp; rewrite H;
  unfold orDefault, orElseLazy, object;
  repeat match goal with
         | |- context [if truthy ?v then _ else _] => destruct (truthy v)
         end;
  simpl; eexists; reflexivity.

Lemma dimensionOf_total (dim : JsVal) :
  isNullish dim = false -> exists y, dimensionOf dim = inr y.
Proof. unfold dimensionOf. projects. Qed.

Lemma dimensionCodeOf_total (code : JsVal) :
  isNullish code = false -> exists y, dimensionCodeOf code = inr y.
Proof. unfold dimensionCodeOf. projects. Qed.

Lemma indicatorOf_total (indicator : JsVal) :
  isNullish indicator = false -> exists y, indicatorOf indicator = inr y.
Proof. unfold indicatorOf. projects. Qed.

Lemma dataPointOf_total (indicator_code : string) (fact : JsVal) :
  isNullish fact = false -> exists y, dataPointOf indicator_code fact = inr y.
Proof. unfold dataPointOf. projects. Qed.

Lemma mapRes_returns {A B : Type} (P : A -> Prop) (f : A -> Res B) (xs : list A) :
  (forall x, P x -> exists y, f x = inr y) ->
  Forall P xs -> exists ys, mapRes f xs = inr ys.
Proof.
  intros Hf. induction 1 as [| x rest Hx _ [ys IH]]; simpl.
  - exists []. reflexivity.
  - destruct (Hf x Hx) as [y ->]. rewrite IH. exists (y :: ys). reflexivity.
Qed.

(** A list of records, none of them null, is projected record by record:
    the result list is as long as the list of the payload. *)
Lemma collect_records (result : JsVal) (project : JsVal -> Res JsVal)
    (items : list JsVal) :
  (forall x, isNullish x = false -> exists y, project x = inr y) ->
  optProp result "value" = JArr items ->
  Forall (fun x => isNullish x = false) items ->
  exists ys, collect result project = inr ys /\ List.length ys = List.length items.
Proof.
  intros Hp Hv Hitems. rewrite (collect_list _ _ items Hv).
  destruct (mapRes_returns _ project items Hp Hitems) as [ys Hys].
  exists ys. split; [exact Hys | exact (mapRes_length _ _ _ Hys)].
Qed.

Section Records.

Variable transport : string -> string + JsVal.
Variable payload : JsVal.
Variable items : list JsVal.
Hypothesis answers : forall url, transport url = inr payload.
Hypothesis value_is_list : optProp payload "value" = JArr items.
Hypothesis records : Forall (fun x => isNullish x = false) items.

(** Every operation whose required parameter is given returns one entry per
    record of the payload, and counts them. *)
Lemma one_entry_per_record (op : Operation) (args : Params.t) :
  Params.method args = Some (methodName op) ->
  requiredGiven op args = true ->
  exists r entries,
    outcome (dispatch transport args) = inr r
    /\ prop r (listField op) = JArr entries
    /\ List.length entries = List.length items
    /\ countOf op r = JNum (numberOfNat (List.length items)).
Proof.
  intros Hm Hreq. unfold dispatch, methodIs. rewrite Hm.
  destruct op; simpl in Hreq |- *; try rewrite Hreq; simpl.
  - destruct (collect_records payload dimensionOf items dimensionOf_total
                value_is_list records) as [ys [Hys Hlen]].
    eexists. exists ys. split.
    + apply (listing_returns transport _ dimensionOf _ payload ys);
        [apply answers | exact Hys].
    + simpl. unfold lengthOf. rewrite Hlen. repeat split.
  - destruct (collect_records payload dimensionCodeOf items dimensionCodeOf_total
                value_is_list records) as [ys [Hys Hlen]].
    eexists. exists ys. split.
    + apply (listing_returns transport _ dimensionCodeOf _ payload ys);
        [apply answers | exact Hys].
    + simpl. unfold lengthOf. rewrite Hlen. repeat split.
  - destruct (collect_records payload (dataPointOf (show (Params.indicator_code args)))
                items (dataPointOf_total _) value_is_list records) as [ys [Hys Hlen]].
    eexists. exists ys. split.
    + apply (getHealthData_returns transport args payload ys);
        [exact Hreq | apply answers | exact Hys].
    + simpl. unfold lengthOf. rewrite Hlen. repeat split.
  - destruct (collect_records payload indicatorOf items indicatorOf_total
                value_is_list records) as [ys [Hys Hlen]].
    eexists. exists ys. split.
    + apply (listing_returns transport _ indicatorOf _ payload ys);
        [apply answers | exact Hys].
    + simpl. unfold lengthOf. rewrite Hlen. repeat split.
  - destruct (collect_records payload (dataPointOf (show (Params.indicator_code args)))
                items (dataPointOf_total _) value_is_list records) as [ys [Hys Hlen]].
    rewrite getCountryData_delegates by exact Hreq.
    eexists. exists ys. split.
    + apply (getHealthData_returns transport (countryDataQuery args) payload ys);
        [exact Hreq | apply answers | exact Hys].
    + simpl. unfold lengthOf. rewrite Hlen. repeat split.
  - destruct (collect_records payload (dataPointOf (show (Params.indicator_code args)))
                items (dataPointOf_total _) value_is_list records) as [ys [Hys Hlen]].
    eexists. exists ys. split.
    + apply (getCrossTable_returns transport args payload ys);
        [exact Hreq | apply answers | exact Hys].
    + simpl. unfold lengthOf. rewrite Hlen. repeat split.
Qed.

End Records.

(** The values of [value] that the guard [if (result?.value)] rejects. *)
Lemma falsy_values (payload : JsVal) :
  isNullish payload = true
  \/ optProp payload "value" = JUndefined
  \/ optProp payload "value" = JNull
  \/ optProp payload "value" = JBool false
  \/ optProp payload "value" = JNum (numberOfZ 0)
  \/ optProp payload "value" = JStr "" ->
  truthy (optProp payload "value") = false.
Proof.
  intros [H | [H | [H | [H | [H | H]]]]]; try (rewrite H; reflexivity).
  unfold optProp. rewrite H. reflexivity.
Qed.

(** C2, as stated, fails: a [value] that is a number is not a list, and
    list-dimensions throws on it. *)
Lemma number_value_throws :
  outcome (dispatch (always (JObj [("value", JNum (numberOfZ 7))]))
             (withMethod get_dimensions Params.empty))
  = inl (TypeError NotIterable).
Proof. reflexivity. Qed.

(** A [value] that is a non-empty string is iterated character by
    character: one record of defaults per character. *)
Lemma string_value_is_iterated :
  exists r,
    outcome (dispatch (always (JObj [("value", JStr "ab")]))
               (withMethod get_dimensions Params.empty)) = inr r
    /\ prop r "total_count" = JNum (numberOfNat 2).
Proof. eexists. split; reflexivity. Qed.

(** A list that holds a null record makes the projection throw. *)
Lemma null_record_throws :
  outcome (dispatch (always (JObj [("value", JArr [JNull])]))
             (withMethod get_dimensions Params.empty))
  = inl (TypeError (PropertyOfNullish "Code")).
Proof. reflexivity. Qed.

Lemma no_value_gives_empty_result_witness :
  Params.method (withMethod get_cross_table (onlyIndicator "X")) = Some (methodName get_cross_table)
  /\ requiredGiven get_cross_table (withMethod get_cross_table (onlyIndicator "X")) = true
  /\ exists r,
       outcome (dispatch (always (JObj [("value", JNull)]))
                  (withMethod get_cross_table (onlyIndicator "X"))) = inr r
       /\ prop r (listField get_cross_table) = JArr []
       /\ countOf get_cross_table r = JNum (numberOfNat 0).
Proof.
  split; [reflexivity | split; [reflexivity |]].
  apply (no_value_gives_empty_result (always (JObj [("value", JNull)]))
           (JObj [("value", JNull)])).
  - intros url. reflexivity.
  - reflexivity.
  - reflexivity.
  - reflexivity.
Defined.

(** C1, as stated, fails: what get-cross-table returns has no
    [total_count]. *)
Lemma cross_table_has_no_total_count :
  exists r,
    outcome (dispatch (always (JObj [("value", JArr [usa2019])]))
               (withMethod get_cross_table crossTableScenario)) = inr r
    /\ hasField r "total_count" = false
    /\ ~ hasTotalCount get_cross_table r.
Proof.
  eexists. split; [reflexivity |]. split; [reflexivity |].
  intros [items [_ [H _]]]. discriminate H.
Qed.

Lemma count_is_length_of_list_witness :
  Params.method (withMethod get_health_data (onlyIndicator "X"))
  = Some (methodName get_health_data)
  /\ outcome (dispatch (always twoRecords) (withMethod get_health_data (onlyIndicator "X")))
     = inr twoRecordsResult
  /\ hasTotalCount get_health_data twoRecordsResult.
Proof.
  split; [reflexivity |]. split; [reflexivity |].
  apply (count_is_length_of_list (always twoRecords) get_health_data
           (withMethod get_health_data (onlyIndicator "X")) twoRecordsResult);
    reflexivity.
Defined.

(** ** Filter composition *)

Lemma split_nonempty (c : ascii) (s : string) : split c s <> [].
Proof.
  destruct s as [| d rest]; simpl; [discriminate |].
  destruct (Ascii.eqb d c); [discriminate |].
  destruct (split c rest); discriminate.
Qed.

(** Joining the pieces with the separator gives the string back. *)
Lemma join_split (c : ascii) (s : string) :
  join (String c EmptyString) (split c s) = s.
Proof.
  unfold join. induction s as [| d rest IH]; simpl; [reflexivity |].
  destruct (Ascii.eqb d c) eqn:Hd.
  - apply Ascii.eqb_eq in Hd. subst d.
    destruct (split c rest) as [| piece pieces] eqn:Hs;
      [exfalso; exact (split_nonempty c rest Hs) |].
    simpl in *. rewrite IH. reflexivity.
  - destruct (split c rest) as [| piece pieces] eqn:Hs;
      [exfalso; exact (split_nonempty c rest Hs) |].
    destruct pieces; simpl in *; rewrite IH; reflexivity.
Qed.

(** A string that includes the separator splits into at least two pieces. *)
Lemma split_includes (c : ascii) (s : string) :
  includes c s = true ->
  exists lower upper rest, split c s = lower :: upper :: rest.
Proof.
  induction s as [| d tail IH]; simpl; [discriminate |].
  destruct (Ascii.eqb d c); simpl.
  - intros _. destruct (split c tail) as [| piece pieces] eqn:Hs;
      [exfalso; exact (split_nonempty c tail Hs) |].
    exists EmptyString, piece, pieces. reflexivity.
  - intros H. destruct (IH H) as [lower [upper [rest Hs]]]. rewrite Hs.
    exists (String d lower), upper, rest. reflexivity.
Qed.

(** The year clause of get-cross-table: a closed range when the value
    includes the separator, an equality otherwise. *)
Lemma yearsClause_range (years : string) :
  includes ":" years = true ->
  exists lower upper rest,
    split ":" years = lower :: upper :: rest
    /\ yearsClause years = "TimeDim ge " ++ lower ++ " and TimeDim le " ++ upper.
Proof.
  intros H. unfold yearsClause. rewrite H.
  destruct (split_includes _ _ H) as [lower [upper [rest Hs]]].
  exists lower, upper, rest. split; [exact Hs |]. rewrite Hs. reflexivity.
Qed.

Lemma yearsClause_single (years : string) :
  includes ":" years = false -> yearsClause years = "TimeDim eq " ++ years.
Proof. unfold yearsClause. intros ->. reflexivity. Qed.

Lemma getCrossTable_years_clause (params : Params.t) (years : string) :
  Params.years params = Some years -> years <> "" ->
  In (yearsClause years) (getCrossTable_filters params).
Proof.
  intros Hy Hne. unfold getCrossTable_filters, pushIf. rewrite Hy. simpl.
  destruct (years =? "") eqn:He; [apply String.eqb_eq in He; contradiction |].
  simpl. destruct (given (Params.countries params)), (given (Params.sex params));
    simpl; auto.
Qed.

(** The year clause of get-country-data is an equality whatever the value. *)
Lemma getCountryData_year_clause (params : Params.t) (year : string) :
  Params.year params = Some year -> year <> "" ->
  In ("TimeDim eq " ++ year) (getCountryData_filters params).
Proof.
  intros Hy Hne. unfold getCountryData_filters, pushIf. rewrite Hy. simpl.
  destruct (year =? "") eqn:He; [apply String.eqb_eq in He; contradiction |].
  simpl. destruct (given (Params.country_code params)), (given (Params.sex params));
    simpl; auto.
Qed.

Section Requests.

Variable transport : string -> string + JsVal.

Lemma getHealthData_requests (params : Params.t) :
  given (Params.indicator_code params) = true ->
  requests (getHealthData transport params) = [healthDataUrl params].
Proof.
  intros Hg. unfold getHealthData. rewrite Hg. simpl.
  apply request_then. intros result. apply lift_then_ret.
Qed.

Lemma getCountryData_requests (params : Params.t) :
  given (Params.indicator_code params) = true ->
  requests (getCountryData transport params) = [healthDataUrl (countryDataQuery params)].
Proof.
  intros Hg. rewrite getCountryData_delegates by exact Hg.
  apply getHealthData_requests. exact Hg.
Qed.

Lemma getCrossTable_requests (params : Params.t) :
  given (Params.indicator_code params) = true ->
  requests (getCrossTable transport params) = [healthDataUrl (crossTableQuery params)].
Proof.
  intros Hg. unfold getCrossTable. fold (crossTableQuery params). rewrite Hg. simpl.
  rewrite bind_requests_lift. apply getHealthData_requests. exact Hg.
Qed.

(** C3 at get-country-data: the year "2015:2020" includes the separator,
    yet the clause derived is the equality [TimeDim eq 2015:2020], which is
    what is requested; get-cross-table derives the closed range from the
    same value. *)
Theorem country_data_year_range_is_equality :
  includes ":" "2015:2020" = true
  /\ getCountryData_filters countryYearRange = ["TimeDim eq 2015:2020"]
  /\ requests (getCountryData transport countryYearRange)
     = ["https://ghoapi.azureedge.net/api/X?%24filter=TimeDim+eq+2015%3A2020&%24orderby=TimeDim+desc"]
  /\ yearsClause "2015:2020" = "TimeDim ge 2015 and TimeDim le 2020".
Proof.
  repeat split. rewrite getCountryData_requests by reflexivity. reflexivity.
Qed.

(** C7. For indicator "X", countries "USA,FRA" and years "2018:2020" the
    filter is the countries clause and the range clause joined with
    [" and "], and that filter is what is requested. *)
Theorem cross_table_scenario_filter :
  getCrossTable_filters crossTableScenario
  = ["SpatialDim in ('USA','FRA')"; "TimeDim ge 2018 and TimeDim le 2020"]
  /\ filterString (getCrossTable_filters crossTableScenario)
     = Some "SpatialDim in ('USA','FRA') and TimeDim ge 2018 and TimeDim le 2020"
  /\ requests (getCrossTable transport crossTableScenario)
     = ["https://ghoapi.azureedge.net/api/X?%24filter=SpatialDim+in+%28%27USA%27%2C%27FRA%27%29+and+TimeDim+ge+2018+and+TimeDim+le+2020&%24top=1000&%24orderby=SpatialDim%2C+TimeDim+desc"].
Proof.
  repeat split. rewrite getCrossTable_requests by reflexivity. reflexivity.
Qed.

End Requests.

(** ** Requests without constraints *)






(** ** Projection of a health-data record *)

Section Projection.

Variable transport : string -> string + JsVal.

(** The data points of a payload whose [value] is a list are the
    projections of its records, in order. *)
Lemma getHealthData_projects (params : Params.t) (result : JsVal)
    (facts healthData : list JsVal) :
  given (Params.indicator_code params) = true ->
  transport (healthDataUrl params) = inr result ->
  optProp result "value" = JArr facts ->
  mapRes (dataPointOf (show (Params.indicator_code params))) facts = inr healthData ->
  outcome (getHealthData transport params)
  = inr (healthDataResult (Params.indicator_code params) healthData (healthDataUrl params)).
Proof.
  intros Hg Ht Hv Hm. apply (getHealthData_returns transport params result);
    [exact Hg | exact Ht |].
  rewrite (collect_list _ _ facts Hv). exact Hm.
Qed.

(** C9. The record [{Value:"12.3", SpatialDim:"USA", TimeDim:2019}], which
    has no [NumericValue], is projected by get-health-data to the data point
    with [value] "12.3" and [numeric_value] null, its place and year kept
    and every other missing field the empty string. *)
Theorem usa2019_projection (params : Params.t) :
  given (Params.indicator_code params) = true ->
  transport (healthDataUrl params) = inr (JObj [("value", JArr [usa2019])]) ->
  dataPointOf (show (Params.indicator_code params)) usa2019
  = inr (usa2019Point (show (Params.indicator_code params)))
  /\ prop (usa2019Point (show (Params.indicator_code params))) "value" = JStr "12.3"
  /\ prop (usa2019Point (show (Params.indicator_code params))) "numeric_value" = JNull
  /\ outcome (getHealthData transport params)
     = inr (healthDataResult (Params.indicator_code params)
              [usa2019Point (show (Params.indicator_code params))]
              (healthDataUrl params)).
Proof.
  intros Hg Ht. repeat split.
  apply (getHealthData_projects params (JObj [("value", JArr [usa2019])]) [usa2019]);
    try assumption; reflexivity.
Qed.

End Projection.

Lemma usa2019_projection_witness :
  given (Params.indicator_code (onlyIndicator "WHOSIS_000001")) = true
  /\ outcome (getHealthData (always (JObj [("value", JArr [usa2019])]))
                (onlyIndicator "WHOSIS_000001"))
     = inr (healthDataResult (Some "WHOSIS_000001") [usa2019Point "WHOSIS_000001"]
              "https://ghoapi.azureedge.net/api/WHOSIS_000001").
Proof.
  split; [reflexivity |].
  exact (proj2 (proj2 (proj2
    (usa2019_projection (always (JObj [("value", JArr [usa2019])]))
       (onlyIndicator "WHOSIS_000001") eq_refl eq_refl)))).
Defined.




(** ** The summary of the cross table *)

Lemma Number_eqb_eq (a b : Number) : Number_eqb a b = true -> a = b.
Proof.
  destruct a as [p | s], b as [q | t]; simpl; try discriminate; intros H.
  - f_equal. apply Qc_is_canon. apply Qeq_bool_iff. exact H.
  - f_equal. apply Bool.eqb_prop. exact H.
Qed.

Lemma Number_eqb_refl (a : Number) : Number_eqb a a = true.
Proof.
  destruct a as [p | s]; simpl.
  - apply Qeq_bool_iff. apply Qeq_refl.
  - apply Bool.eqb_reflx.
Qed.

(** Two values that are the same value are equal. *)
Lemma sameValueZero_eq (a b : JsVal) : sameValueZero a b = true -> a = b.
Proof.
  destruct a, b; simpl; try discriminate; intros H; try reflexivity; f_equal.
  - apply Bool.eqb_prop. exact H.
  - apply Number_eqb_eq. exact H.
  - apply String.eqb_eq. exact H.
Qed.

(** A primitive is the same value as itself. *)
Lemma sameValueZero_refl (a : JsVal) : isPrimitive a = true -> sameValueZero a a = true.
Proof.
  destruct a; simpl; try discriminate; intros _; try reflexivity.
  - apply Bool.eqb_reflx.
  - apply Number_eqb_refl.
  - apply String.eqb_refl.
Qed.

Lemma sameValueZero_sym (a b : JsVal) : sameValueZero a b = sameValueZero b a.
Proof.
  destruct (sameValueZero a b) eqn:Hab.
  - pose proof (sameValueZero_eq _ _ Hab). subst b. symmetry. exact Hab.
  - destruct (sameValueZero b a) eqn:Hba; [| reflexivity].
    pose proof (sameValueZero_eq _ _ Hba). subst b. congruence.
Qed.

(** Adding a value that is not among [seen] moves one distinct value of
    [xs], if [xs] has it, from outside to inside. *)
Lemma distinctOutside_add (seen xs : list JsVal) (x : JsVal) :
  existsb (sameValueZero x) seen = false ->
  distinctOutside seen xs
  = distinctOutside (seen ++ [x]) xs + (if existsb (sameValueZero x) xs then 1 else 0).
Proof.
  intros Hx. induction xs as [| y rest IH]; simpl; [reflexivity |].
  rewrite IH, existsb_app. simpl. rewrite orb_false_r.
  destruct (sameValueZero x y) eqn:Hxy.
  - pose proof (sameValueZero_eq _ _ Hxy). subst y.
    rewrite Hx, Hxy. simpl. destruct (existsb (sameValueZero x) rest); simpl; lia.
  - rewrite (sameValueZero_sym y x), Hxy. simpl. rewrite orb_false_r. lia.
Qed.

(** The set built from [xs] on top of [seen] grows by the distinct values
    of [xs] that are not among [seen]. *)
Lemma fold_Set_add_length (xs seen : list JsVal) :
  List.length (fold_left Set_add xs seen) = List.length seen + distinctOutside seen xs.
Proof.
  revert seen. induction xs as [| x rest IH]; intros seen; simpl; [lia |].
  rewrite IH. unfold Set_add.
  destruct (existsb (sameValueZero x) seen) eqn:Hx; simpl.
  - reflexivity.
  - rewrite (distinctOutside_add seen rest x Hx), length_app. simpl.
    destruct (existsb (sameValueZero x) rest); lia.
Qed.

Lemma distinctOutside_nil (xs : list JsVal) : distinctOutside [] xs = distinctCount xs.
Proof. induction xs as [| x rest IH]; simpl; [reflexivity | rewrite IH; reflexivity]. Qed.

(** The size of the set is the number of distinct values. *)
Lemma newSet_length (xs : list JsVal) : List.length (newSet xs) = distinctCount xs.
Proof. unfold newSet. rewrite fold_Set_add_length, distinctOutside_nil. reflexivity. Qed.

(** On primitives [distinctCount] is the length of any list that holds the
    same values without repetition. *)
Lemma distinctCount_primitives (xs : list JsVal) :
  Forall (fun x => isPrimitive x = true) xs ->
  exists reps, NoDup reps /\ (forall v, In v reps <-> In v xs)
               /\ List.length reps = distinctCount xs.
Proof.
  induction 1 as [| x rest Hx _ [reps [Hnd [Hin Hlen]]]]; simpl.
  - exists []. split; [constructor | split; [tauto | reflexivity]].
  - destruct (existsb (sameValueZero x) rest) eqn:Hex.
    + apply existsb_exists in Hex. destruct Hex as [y [Hy Hxy]].
      apply sameValueZero_eq in Hxy. subst y.
      exists reps. split; [exact Hnd |]. split; [| exact Hlen].
      intros v. rewrite Hin. split; [auto |]. intros [<- | Hv]; assumption.
    + exists (x :: reps). split; [| split].
      * constructor; [| exact Hnd]. rewrite Hin. intros Hxin.
        assert (existsb (sameValueZero x) rest = true) as Hcontra.
        { apply existsb_exists. exists x. split; [exact Hxin |].
          apply sameValueZero_refl. exact Hx. }
        congruence.
      * intros v. simpl. rewrite Hin. tauto.
      * simpl. rewrite Hlen. reflexivity.
Qed.

Lemma distinctCount_le_length (xs : list JsVal) : distinctCount xs <= List.length xs.
Proof.
  induction xs as [| x rest IH]; simpl; [lia |].
  destruct (existsb (sameValueZero x) rest); lia.
Qed.

(** C6. In what get-cross-table returns, [unique_countries] is the number
    of distinct [spatial_dim] values of [structured_data], [unique_years]
    the number of distinct [time_dim] values, and [total_records] the
    length of [structured_data]. *)
Theorem cross_table_summary_counts (transport : string -> string + JsVal)
    (params : Params.t) (r : JsVal) :
  outcome (getCrossTable transport params) = inr r ->
  exists structured_data,
    prop r "structured_data" = JArr structured_data
    /\ prop (prop r "summary") "unique_countries"
       = JNum (numberOfNat
                 (distinctCount (map (fun d => prop d "spatial_dim") structured_data)))
    /\ prop (prop r "summary") "unique_years"
       = JNum (numberOfNat
                 (distinctCount (map (fun d => prop d "time_dim") structured_data)))
    /\ prop (prop r "summary") "total_records"
       = JNum (numberOfNat (List.length structured_data)).
Proof.
  intros H. apply getCrossTable_outcome in H.
  destruct H as [result [xs [_ [_ [_ [_ ->]]]]]].
  exists xs. unfold crossTableResult, lengthOf. simpl.
  rewrite !newSet_length. repeat split.
Qed.

(** Four records, one a duplicate and one without place and year: two
    places and the empty string, one year and the empty string. *)
Lemma cross_table_summary_counts_witness :
  exists r structured_data,
    outcome (getCrossTable (always mixedRecords) crossTableScenario) = inr r
    /\ prop r "structured_data" = JArr structured_data
    /\ List.length structured_data = 4
    /\ prop (prop r "summary") "unique_countries" = JNum (numberOfNat 3)
    /\ prop (prop r "summary") "unique_years" = JNum (numberOfNat 2)
    /\ prop (prop r "summary") "total_records" = JNum (numberOfNat 4).
Proof.
  destruct (cross_table_summary_counts (always mixedRecords) crossTableScenario _ eq_refl)
    as [xs [Hxs [Hc [Hy Ht]]]].
  eexists. exists xs. split; [reflexivity |].
  split; [exact Hxs |].
  simpl in Hxs. injection Hxs as <-.
  split; [reflexivity |]. split; [exact Hc |]. split; [exact Hy | exact Ht].
Defined.

(** * Further properties of the code *)

(** ** Strings *)

Lemma append_assoc (a b c : string) : (a ++ b) ++ c = a ++ (b ++ c).
Proof. induction a as [| x a IH]; simpl; [reflexivity | rewrite IH; reflexivity]. Qed.

Lemma append_nil_r (a : string) : a ++ "" = a.
Proof. induction a as [| x a IH]; simpl; [reflexivity | rewrite IH; reflexivity]. Qed.

Lemma includes_app (c : ascii) (a b : string) :
  includes c (a ++ b) = includes c a || includes c b.
Proof.
  induction a as [| x a IH]; simpl; [reflexivity |].
  rewrite IH. apply orb_assoc.
Qed.

Lemma append_eqb_nil (a b : string) : (a ++ b =? "") = (a =? "") && (b =? "").
Proof. destruct a; simpl; [destruct b |]; reflexivity. Qed.

(** ** The query serialiser *)

Lemma urlencode_app (a b : string) : urlencode (a ++ b) = urlencode a ++ urlencode b.
Proof.
  induction a as [| x a IH]; simpl; [reflexivity |].
  rewrite IH, append_assoc. reflexivity.
Qed.




Lemma urlencodeByte_safe (c : ascii) :
  forallb urlSafe (list_ascii_of_string (urlencodeByte c)) = true.
Proof. destruct c as [[] [] [] [] [] [] [] []]; reflexivity. Qed.

Lemma includes_forallb (P : ascii -> bool) (c : ascii) (s : string) :
  forallb P (list_ascii_of_string s) = true -> includes c s = true -> P c = true.
Proof.
  induction s as [| d s IH]; simpl; [discriminate |].
  intros Hall Hin. apply andb_prop in Hall. destruct Hall as [Hd Hs].
  apply orb_prop in Hin. destruct Hin as [Heq | Hin].
  - apply Ascii.eqb_eq in Heq. subst d. exact Hd.
  - apply IH; assumption.
Qed.

Lemma urlencode_safe (s : string) (c : ascii) :
  includes c (urlencode s) = true -> urlSafe c = true.
Proof.
  induction s as [| d s IH]; simpl; [discriminate |].
  rewrite includes_app. intros H. apply orb_prop in H. destruct H as [H | H].
  - exact (includes_forallb urlSafe c _ (urlencodeByte_safe d) H).
  - apply IH. exact H.
Qed.

Lemma includes_join (c : ascii) (sep : string) (xs : list string) :
  includes c (join sep xs) = true ->
  includes c sep = true \/ exists x, In x xs /\ includes c x = true.
Proof.
  unfold join. induction xs as [| x rest IH]; simpl; [discriminate |].
  destruct rest as [| y rest].
  - intros H. right. exists x. split; [left; reflexivity | exact H].
  - rewrite !includes_app. intros H.
    apply orb_prop in H. destruct H as [H | H];
      [right; exists x; split; [left; reflexivity | exact H] |].
    apply orb_prop in H. destruct H as [H | H]; [left; exact H |].
    destruct (IH H) as [Hs | [z [Hz Hc]]]; [left; exact Hs |].
    right. exists z. split; [right; exact Hz | exact Hc].
Qed.

(** X2. Whatever the names and values of a query, its text holds only
    letters, digits, [*-._+%] and the [=] and [&] that separate the
    entries: no quote, space, [#] or [?] of a value reaches the URL. *)
Theorem query_string_characters (entries : list (string * string)) (c : ascii) :
  includes c (URLSearchParams_toString entries) = true ->
  urlSafe c = true \/ c = "="%char \/ c = "&"%char.
Proof.
  unfold URLSearchParams_toString. intros H.
  apply includes_join in H. destruct H as [H | [x [Hx H]]].
  - cbn [includes] in H. rewrite orb_false_r in H. apply Ascii.eqb_eq in H.
    right. right. symmetry. exact H.
  - apply in_map_iff in Hx. destruct Hx as [[k v] [<- _]]. cbn [fst snd] in H.
    rewrite includes_app in H. apply orb_prop in H. destruct H as [H | H];
      [left; exact (urlencode_safe _ _ H) |].
    cbn [append includes] in H. apply orb_prop in H. destruct H as [H | H].
    + apply Ascii.eqb_eq in H. right. left. symmetry. exact H.
    + left. exact (urlencode_safe _ _ H).
Qed.

Lemma query_string_characters_witness :
  includes "%" (URLSearchParams_toString [("$filter", "Dim1 eq 'MLE'")]) = true
  /\ (urlSafe "%" = true \/ "%"%char = "="%char \/ "%"%char = "&"%char).
Proof.
  split; [reflexivity |].
  exact (query_string_characters [("$filter", "Dim1 eq 'MLE'")] "%" eq_refl).
Defined.

Lemma URLSearchParams_toString_nonempty (entry : string * string)
    (entries : list (string * string)) :
  (URLSearchParams_toString (entry :: entries) =? "") = false.
Proof.
  destruct entry as [k v]. unfold URLSearchParams_toString, join.
  cbn [map fst snd String.concat].
  destruct (map _ entries); rewrite !append_eqb_nil; cbn [append String.eqb];
    rewrite andb_false_r; reflexivity.
Qed.



(** ** Requests and provenance *)

Section Provenance.

Variable transport : string -> string + JsVal.

(** A failed request ends the operation with the wrapped failure. *)
Lemma request_fails {B : Type} (url message : string) (k : JsVal -> Run B) :
  transport url = inl message ->
  (result <- makeWhoODataRequest transport url ;; k result)
  = mkRun (inl (UpstreamRequestFailed message)) [url].
Proof.
  intros Ht. unfold bind, makeWhoODataRequest. simpl. rewrite Ht. reflexivity.
Qed.

Lemma dispatch_requests (op : Operation) (args : Params.t) :
  Params.method args = Some (methodName op) ->
  requiredGiven op args = true ->
  requests (dispatch transport args) = [requestOf op args].
Proof.
  intros Hm Hreq. unfold dispatch, methodIs. rewrite Hm.
  destruct op; simpl in Hreq |- *; try rewrite Hreq; simpl.
  - apply request_then. intros result. apply lift_then_ret.
  - apply request_then. intros result. apply lift_then_ret.
  - apply getHealthData_requests. exact Hreq.
  - apply request_then. intros result. apply lift_then_ret.
  - apply getCountryData_requests. exact Hreq.
  - apply getCrossTable_requests. exact Hreq.
Qed.

Lemma dispatch_returns_given (op : Operation) (args : Params.t) (r : JsVal) :
  Params.method args = Some (methodName op) ->
  outcome (dispatch transport args) = inr r ->
  requiredGiven op args = true.
Proof.
  intros Hm Hr. destruct (requiredGiven op args) eqn:Hreq; [reflexivity |].
  rewrite (dispatch_missing transport op args _ Hm Hreq eq_refl) in Hr. discriminate.
Qed.

(** X4. Whenever the required parameter of an operation is given, the
    operation makes exactly one request, whether it then returns or
    fails. *)
Theorem exactly_one_request (op : Operation) (args : Params.t) :
  Params.method args = Some (methodName op) ->
  requiredGiven op args = true ->
  requests (dispatch transport args) = [requestOf op args]
  /\ requests (callTool transport "who-health" args) = [requestOf op args].
Proof.
  intros Hm Hreq. split; [apply dispatch_requests; assumption |].
  unfold callTool. simpl. apply dispatch_requests; assumption.
Qed.

(** X5. What an operation returns names its origin: [api_url] is the one
    URL that was requested and [source] is the fixed label. *)
Theorem result_names_its_request (op : Operation) (args : Params.t) (r : JsVal) :
  Params.method args = Some (methodName op) ->
  outcome (dispatch transport args) = inr r ->
  requests (dispatch transport args) = [requestOf op args]
  /\ prop r "api_url" = JStr (requestOf op args)
  /\ prop r "source" = JStr SOURCE.
Proof.
  intros Hm Hr.
  pose proof (dispatch_returns_given op args r Hm Hr) as Hreq.
  split; [apply dispatch_requests; assumption |].
  revert Hr. unfold dispatch, methodIs. rewrite Hm.
  destruct op; simpl in Hreq |- *; try rewrite Hreq; simpl; intros Hr.
  - apply listing_outcome in Hr. destruct Hr as [result [xs [_ [_ ->]]]].
    split; reflexivity.
  - apply listing_outcome in Hr. destruct Hr as [result [xs [_ [_ ->]]]].
    split; reflexivity.
  - apply getHealthData_outcome in Hr. destruct Hr as [result [xs [_ [_ [_ ->]]]]].
    split; reflexivity.
  - apply listing_outcome in Hr. destruct Hr as [result [xs [_ [_ ->]]]].
    split; reflexivity.
  - rewrite getCountryData_delegates in Hr by exact Hreq.
    apply getHealthData_outcome in Hr. destruct Hr as [result [xs [_ [_ [_ ->]]]]].
    split; reflexivity.
  - apply getCrossTable_outcome in Hr.
    destruct Hr as [result [xs [_ [_ [_ [_ ->]]]]]]. split; reflexivity.
Qed.

(** X6. When the request fails, every operation whose required parameter
    is given fails with the message of the failure behind a fixed prefix,
    after that one request, and the handler answers the failure. *)
Theorem upstream_failure_is_wrapped (op : Operation) (args : Params.t)
    (message : string) :
  Params.method args = Some (methodName op) ->
  requiredGiven op args = true ->
  transport (requestOf op args) = inl message ->
  dispatch transport args
  = mkRun (inl (Error ("WHO OData API request failed: " ++ message))) [requestOf op args]
  /\ outcome (callTool transport "who-health" args)
     = inr (Failure (Error ("WHO OData API request failed: " ++ message))).
Proof.
  intros Hm Hreq Ht.
  assert (H : dispatch transport args
              = mkRun (inl (UpstreamRequestFailed message)) [requestOf op args]).
  { unfold dispatch, methodIs. rewrite Hm.
    destruct op; simpl in Hreq, Ht |- *; try rewrite Hreq; simpl.
    - apply request_fails. exact Ht.
    - apply request_fails. exact Ht.
    - unfold getHealthData. rewrite Hreq. simpl. apply request_fails. exact Ht.
    - apply request_fails. exact Ht.
    - rewrite getCountryData_delegates by exact Hreq.
      unfold getHealthData. change (Params.indicator_code (countryDataQuery args))
        with (Params.indicator_code args). rewrite Hreq. simpl.
      apply request_fails. exact Ht.
    - unfold getCrossTable. fold (crossTableQuery args). rewrite Hreq. simpl.
      unfold getHealthData. change (Params.indicator_code (crossTableQuery args))
        with (Params.indicator_code args). rewrite Hreq. simpl.
      rewrite (request_fails _ message _ Ht). reflexivity. }
  split; [exact H |]. unfold callTool. simpl. rewrite H. reflexivity.
Qed.

(** X7. A method that the tool does not advertise, or no method at all,
    fails with "Unknown method" and requests nothing. *)
Theorem unknown_method_requests_nothing (args : Params.t) :
  (forall m, Params.method args = Some m -> ~ In m methodEnum) ->
  dispatch transport args
  = throw (Error ("Unknown method: " ++ show (Params.method args)))
  /\ callTool transport "who-health" args
     = ret (Failure (Error ("Unknown method: " ++ show (Params.method args)))).
Proof.
  intros Hm.
  assert (H : forall name, In name methodEnum -> methodIs args name = false).
  { intros name Hin. unfold methodIs.
    destruct (Params.method args) as [m |] eqn:Hmeth; [| reflexivity].
    apply String.eqb_neq. intros ->. exact (Hm name eq_refl Hin). }
  assert (Hd : dispatch transport args
               = throw (Error ("Unknown method: " ++ show (Params.method args)))).
  { unfold dispatch. rewrite !H by (simpl; tauto). reflexivity. }
  split; [exact Hd |]. unfold callTool. simpl. rewrite Hd. reflexivity.
Qed.

(** X8. No call makes more than one request. *)
Theorem at_most_one_request (name : string) (args : Params.t) :
  List.length (requests (dispatch transport args)) <= 1
  /\ List.length (requests (callTool transport name args)) <= 1.
Proof.
  assert (Hd : List.length (requests (dispatch transport args)) <= 1).
  { destruct (Params.method args) as [m |] eqn:Hmeth.
    - assert (Hcases : (exists op, m = methodName op) \/ ~ In m methodEnum).
      { unfold methodEnum. simpl.
        destruct (String.eqb_spec "get_dimensions" m) as [<- | ?];
          [left; exists get_dimensions; reflexivity |].
        destruct (String.eqb_spec "get_dimension_codes" m) as [<- | ?];
          [left; exists get_dimension_codes; reflexivity |].
        destruct (String.eqb_spec "get_health_data" m) as [<- | ?];
          [left; exists get_health_data; reflexivity |].
        destruct (String.eqb_spec "search_indicators" m) as [<- | ?];
          [left; exists search_indicators; reflexivity |].
        destruct (String.eqb_spec "get_country_data" m) as [<- | ?];
          [left; exists get_country_data; reflexivity |].
        destruct (String.eqb_spec "get_cross_table" m) as [<- | ?];
          [left; exists get_cross_table; reflexivity |].
        right. tauto. }
      destruct Hcases as [[op ->] | Hnot].
      + destruct (requiredGiven op args) eqn:Hreq.
        * rewrite (dispatch_requests op args Hmeth Hreq). simpl. lia.
        * rewrite (dispatch_missing transport op args _ Hmeth Hreq eq_refl). simpl. lia.
      + assert (H : forall name, In name methodEnum -> methodIs args name = false).
        { intros nm Hin. unfold methodIs. rewrite Hmeth.
          apply String.eqb_neq. intros ->. exact (Hnot Hin). }
        unfold dispatch. rewrite !H by (simpl; tauto). simpl. lia.
    - unfold dispatch, methodIs. rewrite Hmeth. simpl. lia. }
  split; [exact Hd |].
  unfold callTool. destruct (negb (name =? "who-health")); simpl; [lia | exact Hd].
Qed.

End Provenance.

(** ** Parameters that are not read *)

(** X9. No operation reads [region_code]: a call gives the same outcome
    and makes the same request whatever its value. *)
Theorem region_code_is_ignored (transport : string -> string + JsVal)
    (region_code : option string) (args : Params.t) :
  dispatch transport (withRegionCode region_code args) = dispatch transport args
  /\ getCountryData transport (withRegionCode region_code args)
     = getCountryData transport args.
Proof. split; reflexivity. Qed.

(** X10. get-country-data and get-cross-table derive their own filter and
    ordering: a [filter] or an [orderby] that the caller passes changes
    nothing. *)
Theorem caller_filter_and_order_are_overridden (transport : string -> string + JsVal)
    (filter orderby : option string) (params : Params.t) :
  getCountryData transport (withFilterOrder filter orderby params)
  = getCountryData transport params
  /\ getCrossTable transport (withFilterOrder filter orderby params)
     = getCrossTable transport params.
Proof. split; reflexivity. Qed.

(** ** The derived filter *)

Lemma filterString_none (filters : list string) :
  filterString filters = None <-> filters = [].
Proof.
  unfold filterString. destruct filters; simpl; split; intros H;
    try reflexivity; discriminate.
Qed.

(** X11. The derived filter is null exactly when no constraint is given:
    one country, year or sex that is not empty is enough for a filter. *)
Theorem filter_is_null_iff_unconstrained (params : Params.t) :
  (filterString (getCountryData_filters params) = None
   <-> given (Params.country_code params) = false
       /\ given (Params.year params) = false
       /\ given (Params.sex params) = false)
  /\ (filterString (getCrossTable_filters params) = None
      <-> given (Params.countries params) = false
          /\ given (Params.years params) = false
          /\ given (Params.sex params) = false).
Proof.
  split; rewrite filterString_none.
  - unfold getCountryData_filters, pushIf.
    destruct (given (Params.country_code params)), (given (Params.year params)),
      (given (Params.sex params)); simpl; split; intros H;
      try discriminate; try tauto; destruct H as [? [? ?]]; discriminate.
  - unfold getCrossTable_filters, pushIf.
    destruct (given (Params.countries params)), (given (Params.years params)),
      (given (Params.sex params)); simpl; split; intros H;
      try discriminate; try tauto; destruct H as [? [? ?]]; discriminate.
Qed.

Lemma split_before_separator (c : ascii) (a r : string) :
  includes c a = false -> split c (a ++ String c r) = a :: split c r.
Proof.
  induction a as [| d a IH]; simpl.
  - intros _. rewrite Ascii.eqb_refl. reflexivity.
  - intros H. apply orb_false_elim in H. destruct H as [Hd Ha].
    rewrite Hd, (IH Ha). reflexivity.
Qed.

Lemma split_no_separator (c : ascii) (b : string) :
  includes c b = false -> split c b = [b].
Proof.
  induction b as [| d b IH]; simpl; [reflexivity |].
  intros H. apply orb_false_elim in H. destruct H as [Hd Hb].
  rewrite Hd, (IH Hb). reflexivity.
Qed.

(** X12. Of a years value [lower:upper] the clause is the range from
    [lower] to [upper]; what follows a second separator is dropped, and an
    empty bound is rendered as it is. *)
Theorem years_range_uses_two_bounds (lower upper more : string) :
  includes ":" lower = false ->
  includes ":" upper = false ->
  more = "" \/ (exists rest, more = ":" ++ rest) ->
  yearsClause (lower ++ ":" ++ upper ++ more)
  = "TimeDim ge " ++ lower ++ " and TimeDim le " ++ upper.
Proof.
  intros Hl Hu Hmore. unfold yearsClause.
  assert (Hin : includes ":" (lower ++ ":" ++ upper ++ more) = true).
  { rewrite includes_app. simpl. apply orb_true_r. }
  rewrite Hin. change (":" ++ upper ++ more) with (String ":" (upper ++ more)).
  rewrite (split_before_separator _ _ _ Hl).
  destruct Hmore as [-> | [rest ->]].
  - rewrite append_nil_r, (split_no_separator _ _ Hu). reflexivity.
  - change (":" ++ rest) with (String ":" rest).
    rewrite (split_before_separator _ _ _ Hu). reflexivity.
Qed.

Lemma years_range_uses_two_bounds_witness :
  includes ":" "2018" = false
  /\ includes ":" "" = false
  /\ yearsClause "2018::2022" = "TimeDim ge 2018 and TimeDim le ".
Proof.
  split; [reflexivity |]. split; [reflexivity |].
  exact (years_range_uses_two_bounds "2018" "" ":2022" eq_refl eq_refl
           (or_intror (ex_intro _ "2022" eq_refl))).
Defined.

(** Splitting what [join] built gives the pieces back. *)
Lemma split_join (c : ascii) (pieces : list string) :
  pieces <> [] ->
  Forall (fun piece => includes c piece = false) pieces ->
  split c (join (String c EmptyString) pieces) = pieces.
Proof.
  intros Hne Hall. unfold join.
  induction Hall as [| x rest Hx Hrest IH]; [contradiction |].
  destruct rest as [| y rest]; simpl.
  - apply split_no_separator. exact Hx.
  - rewrite (split_before_separator _ _ _ Hx). f_equal. apply IH. discriminate.
Qed.

(** X13. The countries clause lists one quoted code for each
    comma-separated piece of the value, in order and trimmed; an empty
    piece gives an empty code. *)
Theorem countries_clause_lists_each_code (codes : list string) :
  codes <> [] ->
  Forall (fun code => includes "," code = false) codes ->
  countriesClause (join "," codes)
  = "SpatialDim in (" ++ join "," (map quoted codes) ++ ")".
Proof.
  intros Hne Hall. unfold countriesClause. rewrite (split_join _ _ Hne Hall).
  reflexivity.
Qed.

Lemma countries_clause_lists_each_code_witness :
  ["USA"; " GBR "; ""] <> []
  /\ countriesClause "USA, GBR ," = "SpatialDim in ('USA','GBR','')".
Proof.
  split; [discriminate |].
  exact (countries_clause_lists_each_code ["USA"; " GBR "; ""]
           ltac:(discriminate)
           ltac:(repeat constructor)).
Defined.

(** ** Limits *)

Lemma health_data_entries (params : Params.t) :
  appended (getHealthData_queryParams params)
  = (textEntry "$filter" (Params.filter params)
     ++ topEntry (Params.top params)
     ++ textEntry "$orderby" (Params.orderby params))%list.
Proof.
  unfold getHealthData_queryParams, appended, pushIf, textEntry, topEntry.
  destruct (Params.filter params) as [f |], (Params.top params) as [t |],
    (Params.orderby params) as [o |]; simpl;
    try destruct (f =? "") eqn:Hf; try destruct (t =? 0)%Z;
    try destruct (o =? "") eqn:Ho; simpl; rewrite ?Hf, ?Ho; simpl; rewrite ?Ho;
    reflexivity.
Qed.

(** X14. A limit of 0 is no limit: get-health-data and get-country-data
    request what they request without [top], and get-cross-table, whose
    limit is 1000 when [top] is absent, then sends no limit at all. *)
Theorem limit_zero_is_no_limit (transport : string -> string + JsVal)
    (params : Params.t) :
  getHealthData transport (withTop (Some 0%Z) params)
  = getHealthData transport (withTop None params)
  /\ getCountryData transport (withTop (Some 0%Z) params)
     = getCountryData transport (withTop None params)
  /\ appended (getHealthData_queryParams (crossTableQuery (withTop (Some 0%Z) params)))
     = (textEntry "$filter" (filterString (getCrossTable_filters params))
        ++ [("$orderby", "SpatialDim, TimeDim desc")])%list
  /\ appended (getHealthData_queryParams (crossTableQuery (withTop None params)))
     = (textEntry "$filter" (filterString (getCrossTable_filters params))
        ++ [("$top", "1000"); ("$orderby", "SpatialDim, TimeDim desc")])%list.
Proof.
  split; [reflexivity |]. split; [reflexivity |].
  rewrite !health_data_entries. split; reflexivity.
Qed.

(** ** Projection of the records *)

Lemma orElse_defined (v d : JsVal) : d <> JUndefined -> orElse v d <> JUndefined.
Proof.
  unfold orElse. destruct (truthy v) eqn:Hv; [| auto].
  intros _ ->. discriminate.
Qed.

Ltac defined_fields :=
  repeat constructor; cbn [snd];
  try (apply orElse_defined; discriminate); try discriminate.

(** Every projection gives an object with its fields, all defined. *)
Lemma projection_shape (op : Operation) (args : Params.t) (x y : JsVal) :
  projectionOf op args x = inr y -> wellFormedEntry (entryKeys op) y.
Proof.
  destruct op; simpl;
    unfold dimensionOf, dimensionCodeOf, indicatorOf, dataPointOf, getProp;
    (destruct (isNullish x); [discriminate |]);
    unfold orDefault, orElseLazy, object; simpl;
    try destruct (truthy (prop x "Value")) eqn:Hv; simpl;
    intros H; inversion H; eexists; (split; [reflexivity |]);
    (split; [reflexivity |]); defined_fields;
    unfold orElse; rewrite ?Hv; try (intros ->; discriminate).
Qed.

(** A record that is null or undefined makes its projection throw. *)
Lemma projection_of_nullish (op : Operation) (args : Params.t) (x : JsVal) :
  isNullish x = true ->
  projectionOf op args x = inl (TypeError (PropertyOfNullish (firstKey op))).
Proof.
  intros Hx. destruct op; simpl;
    unfold dimensionOf, dimensionCodeOf, indicatorOf, dataPointOf, getProp;
    rewrite Hx; reflexivity.
Qed.

Lemma projection_total (op : Operation) (args : Params.t) (x : JsVal) :
  isNullish x = false -> exists y, projectionOf op args x = inr y.
Proof.
  destruct op; simpl;
    auto using dimensionOf_total, dimensionCodeOf_total, indicatorOf_total,
      dataPointOf_total.
Qed.

Lemma mapRes_Forall2 {A B : Type} (f : A -> Res B) (xs : list A) (ys : list B) :
  mapRes f xs = inr ys -> Forall2 (fun x y => f x = inr y) xs ys.
Proof.
  revert ys. induction xs as [| x rest IH]; simpl; intros ys H.
  - inversion H. constructor.
  - destruct (f x) as [e | y] eqn:Hx; [discriminate |].
    destruct (mapRes f rest) as [e | ys'] eqn:Hrest; [discriminate |].
    inversion H. constructor; [exact Hx | apply IH; reflexivity].
Qed.

(** The first element that throws decides the loop. *)
Lemma mapRes_fails {A B : Type} (f : A -> Res B) (e : Exn) (xs : list A) :
  (forall x, f x = inl e \/ exists y, f x = inr y) ->
  (exists x, In x xs /\ f x = inl e) ->
  mapRes f xs = inl e.
Proof.
  intros Hf. induction xs as [| x rest IH]; intros [z [Hin Hz]]; [contradiction |].
  simpl. destruct (f x) as [e' | y] eqn:Hx.
  - destruct (Hf x) as [H | [y H]]; congruence.
  - destruct Hin as [<- | Hin]; [congruence |].
    rewrite IH; [reflexivity | exists z; split; assumption].
Qed.

Lemma collect_iterates (result : JsVal) (project : JsVal -> Res JsVal)
    (items : list JsVal) :
  truthy (optProp result "value") = true ->
  iterate (optProp result "value") = inr items ->
  collect result project = mapRes project items.
Proof.
  unfold collect, optProp. destruct (isNullish result); [discriminate |].
  intros -> ->. reflexivity.
Qed.

Lemma collect_not_iterable (result : JsVal) (project : JsVal -> Res JsVal) (e : Exn) :
  truthy (optProp result "value") = true ->
  iterate (optProp result "value") = inl e ->
  collect result project = inl e.
Proof.
  unfold collect, optProp. destruct (isNullish result); [discriminate |].
  intros -> ->. reflexivity.
Qed.

Section PayloadRecords.

Variable transport : string -> string + JsVal.
Variable payload : JsVal.
Hypothesis answers : forall url, transport url = inr payload.

(** What an operation does is decided by what its loop collects. *)
Lemma dispatch_collects (op : Operation) (args : Params.t) :
  Params.method args = Some (methodName op) ->
  requiredGiven op args = true ->
  match collect payload (projectionOf op args) with
  | inl e => outcome (dispatch transport args) = inl e
  | inr entries =>
      exists r, outcome (dispatch transport args) = inr r
                /\ prop r (listField op) = JArr entries
                /\ countOf op r = JNum (numberOfNat (List.length entries))
  end.
Proof.
  intros Hm Hreq. unfold dispatch, methodIs. rewrite Hm.
  destruct op; simpl in Hreq |- *; try rewrite Hreq; simpl.
  - unfold getDimensions, bind. simpl. rewrite answers. simpl.
    destruct (collect payload dimensionOf); simpl; [reflexivity |].
    eexists. repeat split.
  - unfold getDimensionCodes, bind. simpl. rewrite answers. simpl.
    destruct (collect payload dimensionCodeOf); simpl; [reflexivity |].
    eexists. repeat split.
  - unfold getHealthData, bind. rewrite Hreq. simpl. rewrite answers. simpl.
    destruct (collect payload _); simpl; [reflexivity |].
    eexists. repeat split.
  - unfold searchIndicators, bind. simpl. rewrite answers. simpl.
    destruct (collect payload indicatorOf); simpl; [reflexivity |].
    eexists. repeat split.
  - rewrite getCountryData_delegates by exact Hreq.
    unfold getHealthData, bind.
    change (Params.indicator_code (countryDataQuery args))
      with (Params.indicator_code args).
    rewrite Hreq. simpl. rewrite answers. simpl.
    destruct (collect payload _); simpl; [reflexivity |].
    eexists. repeat split.
  - destruct (collect payload (dataPointOf (show (Params.indicator_code args))))
      as [e | entries] eqn:Hc.
    + unfold getCrossTable. fold (crossTableQuery args). rewrite Hreq. simpl.
      unfold bind at 1. unfold getHealthData, bind.
      change (Params.indicator_code (crossTableQuery args))
        with (Params.indicator_code args).
      rewrite Hreq. simpl. rewrite answers. simpl. rewrite Hc. reflexivity.
    + eexists. split;
        [apply (getCrossTable_returns transport args payload entries);
           [exact Hreq | apply answers | exact Hc] |].
      repeat split.
Qed.

(** X15. The result list follows the payload: its entries are the
    projections of the records that the loop visits, one for each and in
    their order, whether [value] is a list or a string. *)
Theorem entries_follow_the_payload (op : Operation) (args : Params.t)
    (items : list JsVal) (r : JsVal) :
  Params.method args = Some (methodName op) ->
  truthy (optProp payload "value") = true ->
  iterate (optProp payload "value") = inr items ->
  outcome (dispatch transport args) = inr r ->
  exists entries,
    prop r (listField op) = JArr entries
    /\ Forall2 (fun item entry => projectionOf op args item = inr entry) items entries.
Proof.
  intros Hm Hv Hit Hr.
  pose proof (dispatch_returns_given transport op args r Hm Hr) as Hreq.
  pose proof (dispatch_collects op args Hm Hreq) as Hc.
  rewrite (collect_iterates _ _ items Hv Hit) in Hc.
  destruct (mapRes (projectionOf op args) items) as [e | entries] eqn:Hmap.
  - rewrite Hc in Hr. discriminate.
  - destruct Hc as [r' [Hr' [Hlist _]]]. rewrite Hr' in Hr. inversion Hr; subst r'.
    exists entries. split; [exact Hlist | apply mapRes_Forall2; exact Hmap].
Qed.

(** X16. One record that is null fails the whole call: the operation
    throws the TypeError of reading the first field, and returns no part of
    the list. *)
Theorem null_record_fails_the_call (op : Operation) (args : Params.t)
    (items : list JsVal) (x : JsVal) :
  Params.method args = Some (methodName op) ->
  requiredGiven op args = true ->
  optProp payload "value" = JArr items ->
  In x items ->
  isNullish x = true ->
  outcome (dispatch transport args) = inl (TypeError (PropertyOfNullish (firstKey op))).
Proof.
  intros Hm Hreq Hv Hin Hx.
  pose proof (dispatch_collects op args Hm Hreq) as Hc.
  rewrite (collect_list _ _ items Hv) in Hc.
  rewrite (mapRes_fails (projectionOf op args)
             (TypeError (PropertyOfNullish (firstKey op))) items) in Hc.
  - exact Hc.
  - intros z. destruct (isNullish z) eqn:Hz.
    + left. apply projection_of_nullish. exact Hz.
    + right. apply projection_total. exact Hz.
  - exists x. split; [exact Hin | apply projection_of_nullish; exact Hx].
Qed.

(** X17. A [value] that is truthy and can not be iterated (a number, true,
    an object) makes every operation throw a TypeError. *)
Theorem value_that_is_not_iterable_throws (op : Operation) (args : Params.t) :
  Params.method args = Some (methodName op) ->
  requiredGiven op args = true ->
  truthy (optProp payload "value") = true ->
  (forall items, optProp payload "value" <> JArr items) ->
  (forall s, optProp payload "value" <> JStr s) ->
  outcome (dispatch transport args) = inl (TypeError NotIterable).
Proof.
  intros Hm Hreq Hv Harr Hstr.
  pose proof (dispatch_collects op args Hm Hreq) as Hc.
  rewrite (collect_not_iterable _ _ (TypeError NotIterable) Hv) in Hc; [exact Hc |].
  destruct (optProp payload "value") as [| | b | n | s | items | fields];
    try reflexivity.
  - exfalso. exact (Hstr s eq_refl).
  - exfalso. exact (Harr items eq_refl).
Qed.

(** X18. Every entry of a result list is an object with all the fields of
    its kind, and none of them is undefined: a field that the record lacks
    holds its default. *)
Theorem entries_have_every_field (op : Operation) (args : Params.t) (r : JsVal) :
  Params.method args = Some (methodName op) ->
  outcome (dispatch transport args) = inr r ->
  exists entries,
    prop r (listField op) = JArr entries
    /\ Forall (wellFormedEntry (entryKeys op)) entries.
Proof.
  intros Hm Hr.
  pose proof (dispatch_returns_given transport op args r Hm Hr) as Hreq.
  pose proof (dispatch_collects op args Hm Hreq) as Hc.
  destruct (collect payload (projectionOf op args)) as [e | entries] eqn:Hcol.
  - rewrite Hc in Hr. discriminate.
  - destruct Hc as [r' [Hr' [Hlist _]]]. rewrite Hr' in Hr. inversion Hr; subst r'.
    exists entries. split; [exact Hlist |].
    apply (collect_Forall _ payload (projectionOf op args)); [| exact Hcol].
    intros x y. apply projection_shape.
Qed.

End PayloadRecords.

(** ** The value of a data point *)

(** X19. A [NumericValue] of 0 is taken for a missing one: the data point
    has [numeric_value] null, and without a [Value] its [value] is the
    empty string. *)
Theorem zero_numeric_value_is_dropped (indicator_code : string)
    (fields : list (string * JsVal)) (n : Number) :
  lookupField "Value" fields = None ->
  lookupField "NumericValue" fields = Some (JNum n) ->
  Number_isZero n = true ->
  exists dataPoint,
    dataPointOf indicator_code (JObj fields) = inr dataPoint
    /\ prop dataPoint "value" = JStr ""
    /\ prop dataPoint "numeric_value" = JNull
    /\ prop dataPoint "display_value" = JStr "".
Proof.
  intros Hv Hn Hz. unfold dataPointOf, getProp, prop. simpl isNullish. cbv iota.
  rewrite Hv, Hn. unfold orElseLazy, orDefault, orElse. simpl truthy. rewrite Hz.
  unfold object. simpl.
  eexists. split; [reflexivity |]. simpl. rewrite ?Hz. simpl. repeat split.
Qed.

Lemma zero_numeric_value_is_dropped_witness :
  Number_isZero (numberOfZ 0) = true
  /\ exists dataPoint,
       dataPointOf "X" (JObj [("NumericValue", JNum (numberOfZ 0)); ("SpatialDim", JStr "FRA")])
       = inr dataPoint
       /\ prop dataPoint "value" = JStr ""
       /\ prop dataPoint "numeric_value" = JNull
       /\ prop dataPoint "display_value" = JStr "".
Proof.
  split; [reflexivity |].
  exact (zero_numeric_value_is_dropped "X"
           [("NumericValue", JNum (numberOfZ 0)); ("SpatialDim", JStr "FRA")]
           (numberOfZ 0) eq_refl eq_refl eq_refl).
Defined.

(** X20. A [Value] that is truthy is both the [value] and the
    [display_value] of the data point, whatever the [NumericValue]; the
    [numeric_value] is the [NumericValue], or null when that is missing or
    falsy. *)
Theorem textual_value_is_preferred (indicator_code : string)
    (fields : list (string * JsVal)) (v : JsVal) :
  lookupField "Value" fields = Some v ->
  truthy v = true ->
  exists dataPoint,
    dataPointOf indicator_code (JObj fields) = inr dataPoint
    /\ prop dataPoint "value" = v
    /\ prop dataPoint "display_value" = v
    /\ prop dataPoint "numeric_value"
       = orElse (prop (JObj fields) "NumericValue") JNull.
Proof.
  intros Hv Ht. unfold dataPointOf, getProp. simpl isNullish. cbv iota.
  assert (Hp : prop (JObj fields) "Value" = v) by (unfold prop; rewrite Hv; reflexivity).
  rewrite Hp. unfold orElseLazy, orDefault. rewrite Ht. unfold object. simpl.
  eexists. split; [reflexivity |]. simpl. unfold orElse. rewrite Ht. repeat split.
Qed.

Lemma textual_value_is_preferred_witness :
  truthy (JStr "71.5 [70.1-72.9]") = true
  /\ exists dataPoint,
       dataPointOf "X" (JObj [ ("Value", JStr "71.5 [70.1-72.9]");
                               ("NumericValue", JNum (Finite (Q2Qc (143 # 2)))) ])
       = inr dataPoint
       /\ prop dataPoint "value" = JStr "71.5 [70.1-72.9]"
       /\ prop dataPoint "display_value" = JStr "71.5 [70.1-72.9]"
       /\ prop dataPoint "numeric_value" = JNum (Finite (Q2Qc (143 # 2))).
Proof.
  split; [reflexivity |].
  exact (textual_value_is_preferred "X"
           [ ("Value", JStr "71.5 [70.1-72.9]");
             ("NumericValue", JNum (Finite (Q2Qc (143 # 2)))) ]
           (JStr "71.5 [70.1-72.9]") eq_refl eq_refl).
Defined.

(** ** The cross table and the health data *)

Lemma distinctCount_positive (xs : list JsVal) : xs <> [] -> 0 < distinctCount xs.
Proof.
  induction xs as [| x rest IH]; [contradiction |]. intros _. simpl.
  destruct (existsb (sameValueZero x) rest) eqn:Hex; [| lia].
  simpl. apply IH. intros ->. discriminate.
Qed.

Section CrossTable.

Variable transport : string -> string + JsVal.

(** X21. The counts of the summary are bounded by the records: neither
    count exceeds [total_records], and both are at least 1 as soon as there
    is a record. *)
Theorem summary_counts_are_bounded (params : Params.t) (r : JsVal) :
  outcome (getCrossTable transport params) = inr r ->
  exists countries years records,
    prop (prop r "summary") "unique_countries" = JNum (numberOfNat countries)
    /\ prop (prop r "summary") "unique_years" = JNum (numberOfNat years)
    /\ prop (prop r "summary") "total_records" = JNum (numberOfNat records)
    /\ countries <= records /\ years <= records
    /\ (0 < records -> 0 < countries /\ 0 < years).
Proof.
  intros H. apply getCrossTable_outcome in H.
  destruct H as [result [xs [_ [_ [_ [_ ->]]]]]].
  exists (distinctCount (map (fun d => prop d "spatial_dim") xs)),
         (distinctCount (map (fun d => prop d "time_dim") xs)), (List.length xs).
  unfold crossTableResult, lengthOf. simpl. rewrite !newSet_length.
  repeat split.
  - rewrite <- (length_map (fun d => prop d "spatial_dim") xs).
    apply distinctCount_le_length.
  - rewrite <- (length_map (fun d => prop d "time_dim") xs).
    apply distinctCount_le_length.
  - apply distinctCount_positive. destruct xs; [simpl in *; lia | discriminate].
  - apply distinctCount_positive. destruct xs; [simpl in *; lia | discriminate].
Qed.

(** X22. get-cross-table is get-health-data on the derived query: it fails
    with the same error, and otherwise returns the same data points, under
    [structured_data], with the same indicator, URL and count. *)
Theorem cross_table_wraps_health_data (params : Params.t) :
  given (Params.indicator_code params) = true ->
  requests (getCrossTable transport params)
  = requests (getHealthData transport (crossTableQuery params))
  /\ match outcome (getHealthData transport (crossTableQuery params)) with
     | inl e => outcome (getCrossTable transport params) = inl e
     | inr healthData =>
         exists r,
           outcome (getCrossTable transport params) = inr r
           /\ prop r "structured_data" = prop healthData "data"
           /\ prop r "indicator" = prop healthData "indicator"
           /\ prop r "api_url" = prop healthData "api_url"
           /\ prop (prop r "summary") "total_records" = prop healthData "total_count"
     end.
Proof.
  intros Hg. split.
  - rewrite getCrossTable_requests by exact Hg.
    symmetry. apply getHealthData_requests. exact Hg.
  - destruct (outcome (getHealthData transport (crossTableQuery params)))
      as [e | healthData] eqn:Hh.
    + unfold getCrossTable. fold (crossTableQuery params). rewrite Hg. simpl.
      unfold bind. rewrite Hh. reflexivity.
    + apply getHealthData_outcome in Hh.
      destruct Hh as [result [xs [_ [Ht [Hxs ->]]]]].
      eexists. split;
        [apply (getCrossTable_returns transport params result xs); assumption |].
      repeat split.
Qed.

(** X23. The keywords of a search reach one query parameter only: they are
    encoded inside the [$filter] value, between the encoded quotes, and the
    URL has no [&]. *)
Theorem search_keywords_stay_in_the_filter (keywords : option string) :
  requests (searchIndicators transport keywords)
  = [ "https://ghoapi.azureedge.net/api/Indicator?%24filter=contains%28IndicatorName%2C%27"
      ++ urlencode (show keywords) ++ "%27%29" ]
  /\ includes "&" ("https://ghoapi.azureedge.net/api/Indicator?%24filter=contains%28IndicatorName%2C%27"
                   ++ urlencode (show keywords) ++ "%27%29") = false.
Proof.
  split.
  - unfold searchIndicators. rewrite request_then
      by (intros result; apply lift_then_ret).
    f_equal.
    assert (Hset : (("contains(IndicatorName,'" ++ show keywords ++ "')") =? "") = false)
      by reflexivity.
    remember ("contains(IndicatorName,'" ++ show keywords ++ "')") as f eqn:Hf.
    unfold generateWhoODataUrl, appended. cbv zeta.
    cbn [List.filter map fst snd isSet QueryValue_toString]. rewrite Hset.
    cbn [negb map fst snd QueryValue_toString].
    rewrite URLSearchParams_toString_nonempty. cbn [negb].
    unfold URLSearchParams_toString, join. cbn [map fst snd String.concat].
    subst f. rewrite !urlencode_app. reflexivity.
  - rewrite !includes_app.
    destruct (includes "&" (urlencode (show keywords))) eqn:H; [| reflexivity].
    apply urlencode_safe in H. discriminate H.
Qed.

End CrossTable.

(** ** The request of get-health-data *)



(** ** Required parameters that are empty *)

(** X25. A required parameter that is the empty string is missing like an
    absent one: the dispatcher fails naming the field and the method and
    requests nothing, and so do the three operations that check the
    indicator code themselves. *)
Theorem empty_required_parameter_is_missing (transport : string -> string + JsVal)
    (op : Operation) (args : Params.t) (field : string) :
  Params.method args = Some (methodName op) ->
  requiredField op = Some field ->
  requiredGiven op args = false ->
  dispatch transport args = throw (MissingParameterFor field (methodName op))
  /\ (field = "indicator_code" ->
      getHealthData transport args = throw (MissingParameter "indicator_code")
      /\ getCountryData transport args = throw (MissingParameter "indicator_code")
      /\ getCrossTable transport args = throw (MissingParameter "indicator_code")).
Proof.
  intros Hm Hf Hreq. split.
  - apply dispatch_missing; [exact Hm | exact Hreq |].
    destruct op; simpl in Hf; inversion Hf; reflexivity.
  - intros ->.
    assert (Hg : given (Params.indicator_code args) = false)
      by (destruct op; simpl in Hf, Hreq; try discriminate; exact Hreq).
    rewrite getHealthData_missing, getCountryData_missing, getCrossTable_missing
      by exact Hg.
    repeat split.
Qed.

Lemma empty_required_parameter_is_missing_witness :
  requiredGiven get_cross_table (withMethod get_cross_table (onlyIndicator "")) = false
  /\ dispatch (always JNull) (withMethod get_cross_table (onlyIndicator ""))
     = throw (Error "indicator_code parameter is required for get_cross_table")
  /\ getCrossTable (always JNull) (withMethod get_cross_table (onlyIndicator ""))
     = throw (Error "indicator_code parameter is required").
Proof.
  split; [reflexivity |].
  destruct (empty_required_parameter_is_missing (always JNull) get_cross_table
              (withMethod get_cross_table (onlyIndicator "")) "indicator_code"
              eq_refl eq_refl eq_refl) as [Hd Hops].
  split; [exact Hd |]. exact (proj2 (proj2 (Hops eq_refl))).
Defined.

(** ** Trimming *)














(** ** The properties on sample calls *)

Lemma exactly_one_request_witness :
  requiredGiven get_country_data (withMethod get_country_data countryYearRange) = true
  /\ requests (dispatch (unreachable "timeout of 30000ms exceeded")
                 (withMethod get_country_data countryYearRange))
     = ["https://ghoapi.azureedge.net/api/X?%24filter=TimeDim+eq+2015%3A2020&%24orderby=TimeDim+desc"]
  /\ requests (callTool (unreachable "timeout of 30000ms exceeded") "who-health"
                 (withMethod get_country_data countryYearRange))
     = ["https://ghoapi.azureedge.net/api/X?%24filter=TimeDim+eq+2015%3A2020&%24orderby=TimeDim+desc"].
Proof.
  split; [reflexivity |].
  exact (exactly_one_request (unreachable "timeout of 30000ms exceeded")
           get_country_data (withMethod get_country_data countryYearRange)
           eq_refl eq_refl).
Defined.

Lemma result_names_its_request_witness :
  outcome (dispatch (always twoRecords) (withMethod get_health_data (onlyIndicator "X")))
  = inr twoRecordsResult
  /\ requests (dispatch (always twoRecords) (withMethod get_health_data (onlyIndicator "X")))
     = ["https://ghoapi.azureedge.net/api/X"]
  /\ prop twoRecordsResult "api_url" = JStr "https://ghoapi.azureedge.net/api/X"
  /\ prop twoRecordsResult "source" = JStr "WHO Global Health Observatory (OData API)".
Proof.
  split; [reflexivity |].
  exact (result_names_its_request (always twoRecords) get_health_data
           (withMethod get_health_data (onlyIndicator "X")) twoRecordsResult
           eq_refl eq_refl).
Defined.

Lemma upstream_failure_is_wrapped_witness :
  unreachable "Request failed with status code 404"
    (requestOf get_dimension_codes
       (withMethod get_dimension_codes
          (Params.mk None (Some "PLANET") None None None None None None None None None
             None None)))
  = inl "Request failed with status code 404"
  /\ dispatch (unreachable "Request failed with status code 404")
       (withMethod get_dimension_codes
          (Params.mk None (Some "PLANET") None None None None None None None None None
             None None))
     = mkRun
         (inl (Error "WHO OData API request failed: Request failed with status code 404"))
         ["https://ghoapi.azureedge.net/api/DIMENSION/PLANET/DimensionValues"]
  /\ outcome (callTool (unreachable "Request failed with status code 404") "who-health"
                (withMethod get_dimension_codes
                   (Params.mk None (Some "PLANET") None None None None None None None
                      None None None None)))
     = inr (Failure
              (Error "WHO OData API request failed: Request failed with status code 404")).
Proof.
  split; [reflexivity |].
  exact (upstream_failure_is_wrapped (unreachable "Request failed with status code 404")
           get_dimension_codes
           (withMethod get_dimension_codes
              (Params.mk None (Some "PLANET") None None None None None None None None
                 None None None))
           "Request failed with status code 404" eq_refl eq_refl eq_refl).
Defined.

Lemma unknown_method_requests_nothing_witness :
  ~ In "get_regions" methodEnum
  /\ dispatch (always JNull)
       (Params.mk (Some "get_regions") None None None None None None None None None None
          None None)
     = throw (Error "Unknown method: get_regions")
  /\ callTool (always JNull) "who-health"
       (Params.mk (Some "get_regions") None None None None None None None None None None
          None None)
     = ret (Failure (Error "Unknown method: get_regions")).
Proof.
  assert (Hnot : ~ In "get_regions" methodEnum).
  { simpl. intros H. repeat (destruct H as [H | H]; [discriminate |]). exact H. }
  split; [exact Hnot |].
  apply (unknown_method_requests_nothing (always JNull)
           (Params.mk (Some "get_regions") None None None None None None None None None
              None None None)).
  intros m Hm. inversion Hm. exact Hnot.
Defined.

Lemma entries_follow_the_payload_witness :
  iterate (optProp twoRecords "value") = inr [usa2019; usa2019]
  /\ outcome (dispatch (always twoRecords) (withMethod get_health_data (onlyIndicator "X")))
     = inr twoRecordsResult
  /\ exists entries,
       prop twoRecordsResult "data" = JArr entries
       /\ Forall2 (fun item entry => dataPointOf "X" item = inr entry)
            [usa2019; usa2019] entries.
Proof.
  split; [reflexivity |]. split; [reflexivity |].
  exact (entries_follow_the_payload (always twoRecords) twoRecords
           (fun url => eq_refl) get_health_data
           (withMethod get_health_data (onlyIndicator "X"))
           [usa2019; usa2019] twoRecordsResult eq_refl eq_refl eq_refl eq_refl).
Defined.

Lemma null_record_fails_the_call_witness :
  In JNull [usa2019; JNull]
  /\ outcome (dispatch (always nullRecord) (withMethod get_cross_table crossTableScenario))
     = inl (TypeError (PropertyOfNullish "Value")).
Proof.
  split; [right; left; reflexivity |].
  exact (null_record_fails_the_call (always nullRecord) nullRecord
           (fun url => eq_refl) get_cross_table
           (withMethod get_cross_table crossTableScenario)
           [usa2019; JNull] JNull eq_refl eq_refl eq_refl
           (or_intror (or_introl eq_refl)) eq_refl).
Defined.

Lemma value_that_is_not_iterable_throws_witness :
  truthy (optProp trueValue "value") = true
  /\ outcome (dispatch (always trueValue) (withMethod get_dimensions Params.empty))
     = inl (TypeError NotIterable).
Proof.
  split; [reflexivity |].
  apply (value_that_is_not_iterable_throws (always trueValue) trueValue
           (fun url => eq_refl) get_dimensions (withMethod get_dimensions Params.empty));
    try reflexivity; intros x H; discriminate H.
Defined.

Lemma entries_have_every_field_witness :
  outcome (dispatch (always twoRecords) (withMethod get_health_data (onlyIndicator "X")))
  = inr twoRecordsResult
  /\ exists entries,
       prop twoRecordsResult "data" = JArr entries
       /\ Forall (wellFormedEntry (entryKeys get_health_data)) entries.
Proof.
  split; [reflexivity |].
  exact (entries_have_every_field (always twoRecords) twoRecords
           (fun url => eq_refl) get_health_data
           (withMethod get_health_data (onlyIndicator "X")) twoRecordsResult
           eq_refl eq_refl).
Defined.

Lemma summary_counts_are_bounded_witness :
  exists r,
    outcome (getCrossTable (always mixedRecords) crossTableScenario) = inr r
    /\ exists countries years records,
         prop (prop r "summary") "unique_countries" = JNum (numberOfNat countries)
         /\ prop (prop r "summary") "unique_years" = JNum (numberOfNat years)
         /\ prop (prop r "summary") "total_records" = JNum (numberOfNat records)
         /\ countries <= records /\ years <= records
         /\ (0 < records -> 0 < countries /\ 0 < years).
Proof.
  eexists. split; [reflexivity |].
  exact (summary_counts_are_bounded (always mixedRecords) crossTableScenario _ eq_refl).
Defined.

Lemma cross_table_wraps_health_data_witness :
  given (Params.indicator_code crossTableScenario) = true
  /\ requests (getCrossTable (always nullRecord) crossTableScenario)
     = requests (getHealthData (always nullRecord) (crossTableQuery crossTableScenario))
  /\ outcome (getHealthData (always nullRecord) (crossTableQuery crossTableScenario))
     = inl (TypeError (PropertyOfNullish "Value"))
  /\ outcome (getCrossTable (always nullRecord) crossTableScenario)
     = inl (TypeError (PropertyOfNullish "Value")).
Proof.
  split; [reflexivity |].
  destruct (cross_table_wraps_health_data (always nullRecord) crossTableScenario eq_refl)
    as [Hreq Hout].
  split; [exact Hreq |]. split; [reflexivity |]. exact Hout.
Defined.
